(** * Twikit bridge: the JSON-RPC worker of [backend/python/twikit_bridge.py]

    A shallow embedding of the bridge class [TwikitBridge], of the dispatcher
    [handle_request] and of the protocol loop [main], followed by the
    properties of the protocol that the development settles.

    Conventions of the embedding.
    - Python values are the inductive [pyval]; the documents decoded by
      [json.loads] are the values without [VObj].
    - Every exception of the model is an instance of Python's [Exception];
      [KeyboardInterrupt] (an asynchronous signal, answered by [break]) is
      outside the model.
    - The twikit client, the clock and the library functions [json.loads],
      [datetime.strptime], [repr] and [traceback.format_exc] are fields of
      the record [Env]; the calls made to the client and to the clock are
      recorded in a trace, and the answer of the client may depend on it.
    - [print(json.dumps(x), flush=True)] appends the document [x] to the
      list [stdout]: one element per written line. *)

From Stdlib Require Import ZArith QArith String Ascii List Bool Lia DecimalString.
Import ListNotations.

Close Scope Q_scope.
Open Scope string_scope.
Open Scope list_scope.

Set Warnings "-register-all".

(* ------------------------------------------------------------------ *)
(** ** Python values *)

(** A Python float: a finite double is kept by its exact rational value,
    which is all that comparison with an [int] looks at. *)
Inductive pyfloat : Type :=
| FNan
| FInf (negative : bool)
| FFin (q : Q).

(** The classes of exception the program tells apart.  [TwikitException]
    is the class imported from [twikit.errors]; the others are builtin. *)
Inductive exn_class : Type :=
| TwikitException
| AttributeError
| TypeError
| ValueError
| OtherException.

(** An exception: its class and the text of [str(e)]. *)
Record exn : Type := Exn { exn_cls : exn_class; exn_str : string }.

(** What looking an attribute up on an object does: the attribute is
    missing (the lookup raises [AttributeError]), it has a value, or it
    is a property whose code raises [e].  [hasattr] and three-argument
    [getattr] absorb every [AttributeError], that of a property too. *)
Inductive attr (V : Type) : Type :=
| Missing
| Has (v : V)
| Raising (e : exn).
Arguments Missing {V}.
Arguments Has {V} v.
Arguments Raising {V} e.

Inductive pyval : Type :=
| VNone
| VBool (b : bool)
| VInt (z : Z)
| VFloat (f : pyfloat)
| VStr (s : string)
| VList (l : list pyval)
| VDict (kv : list (string * pyval))
| VObj (cls : string) (fields : list (string * attr pyval)).

(** The result of a computation that may raise. *)
Inductive outcome (A : Type) : Type :=
| Ok (a : A)
| Raise (e : exn).
Arguments Ok {A} a.
Arguments Raise {A} e.

Definition is_twikit (e : exn) : bool :=
  match exn_cls e with TwikitException => true | _ => false end.

Definition is_attribute_error (e : exn) : bool :=
  match exn_cls e with AttributeError => true | _ => false end.

(** [type(v).__name__] *)
Definition type_name (v : pyval) : string :=
  match v with
  | VNone => "NoneType"
  | VBool _ => "bool"
  | VInt _ => "int"
  | VFloat _ => "float"
  | VStr _ => "str"
  | VList _ => "list"
  | VDict _ => "dict"
  | VObj cls _ => cls
  end.

(** Truth value of an object ([if x:], [x or 0], [not x]).  Objects of
    the capability define neither [__bool__] nor [__len__]. *)
Definition truthy (v : pyval) : bool :=
  match v with
  | VNone => false
  | VBool b => b
  | VInt z => negb (z =? 0)%Z
  | VFloat FNan => true
  | VFloat (FInf _) => true
  | VFloat (FFin q) => negb (Qeq_bool q 0%Q)
  | VStr s => negb (s =? "")
  | VList l => match l with [] => false | _ => true end
  | VDict kv => match kv with [] => false | _ => true end
  | VObj _ _ => true
  end.

(** [x or d] *)
Definition py_or (x d : pyval) : pyval := if truthy x then x else d.

Fixpoint assoc {V : Type} (k : string) (kv : list (string * V)) : option V :=
  match kv with
  | [] => None
  | (k', v) :: rest => if k' =? k then Some v else assoc k rest
  end.

(** Attribute lookup, for the attribute names the program uses; none of
    them is defined by a builtin type, so only objects can have them. *)
Definition py_getattr (v : pyval) (name : string) : attr pyval :=
  match v with
  | VObj _ fields =>
      match assoc name fields with
      | Some a => a
      | None => Missing
      end
  | _ => Missing
  end.

(** [method == 'initialize'] and the like: equality with a [str]. *)
Definition py_eq_str (v : pyval) (s : string) : bool :=
  match v with
  | VStr s' => s' =? s
  | _ => false
  end.

Definition string_of_Z (z : Z) : string := NilZero.string_of_int (Z.to_int z).

Fixpoint chars_of (s : string) : list pyval :=
  match s with
  | EmptyString => []
  | String c rest => VStr (String c EmptyString) :: chars_of rest
  end.

(** [iter(v)] run to the end. *)
Definition py_iter (v : pyval) : outcome (list pyval) :=
  match v with
  | VList l => Ok l
  | VStr s => Ok (chars_of s)
  | VDict kv => Ok (map (fun p => VStr (fst p)) kv)
  | _ => Raise (Exn TypeError ("'" ++ type_name v ++ "' object is not iterable"))
  end.

Definition Z_of_bool (b : bool) : Z := if b then 1%Z else 0%Z.

(** [n < v] for an [int] [n]. *)
Definition py_int_lt (n : Z) (v : pyval) : outcome bool :=
  match v with
  | VInt z => Ok (n <? z)%Z
  | VBool b => Ok (n <? Z_of_bool b)%Z
  | VFloat FNan => Ok false
  | VFloat (FInf negative) => Ok (negb negative)
  | VFloat (FFin q) => Ok (negb (Qle_bool q (inject_Z n)))
  | _ => Raise (Exn TypeError
           ("'<' not supported between instances of 'int' and '"
              ++ type_name v ++ "'"))
  end.

(** [min(v, n)] for an [int] [n]: [v] unless [n < v]. *)
Definition py_min (v : pyval) (n : Z) : outcome pyval :=
  match py_int_lt n v with
  | Ok true => Ok (VInt n)
  | Ok false => Ok v
  | Raise e => Raise e
  end.

(** [l[:k]]: a negative bound counts from the end of the list. *)
Definition slice_to {A : Type} (l : list A) (k : Z) : list A :=
  if (k <? 0)%Z then firstn (Z.to_nat (Z.of_nat (length l) + k)) l
  else firstn (Z.to_nat k) l.

Definition py_slice_to {A : Type} (l : list A) (k : pyval) : outcome (list A) :=
  match k with
  | VInt z => Ok (slice_to l z)
  | VBool b => Ok (slice_to l (Z_of_bool b))
  | VNone => Ok l
  | _ => Raise (Exn TypeError
           "slice indices must be integers or None or have an __index__ method")
  end.

(** [json.dumps] fails on the first object it meets that is no JSON
    value; the function returns the class of that object. *)
Fixpoint unserializable (v : pyval) : option string :=
  match v with
  | VList l =>
      (fix items (l : list pyval) : option string :=
         match l with
         | [] => None
         | x :: rest =>
             match unserializable x with
             | Some c => Some c
             | None => items rest
             end
         end) l
  | VDict kv =>
      (fix entries (kv : list (string * pyval)) : option string :=
         match kv with
         | [] => None
         | (_, x) :: rest =>
             match unserializable x with
             | Some c => Some c
             | None => entries rest
             end
         end) kv
  | VObj cls _ => Some cls
  | _ => None
  end.

(** [json.dumps(v)]: the document itself, or [TypeError]. *)
Definition json_dumps (v : pyval) : outcome pyval :=
  match unserializable v with
  | None => Ok v
  | Some cls =>
      Raise (Exn TypeError ("Object of type " ++ cls ++ " is not JSON serializable"))
  end.

(* ------------------------------------------------------------------ *)
(** ** Text: [str.strip] *)

(** [str.isspace] on the code points below 256. *)
Definition is_space (c : ascii) : bool :=
  let n := nat_of_ascii c in
  (((9 <=? n) && (n <=? 13)) || ((28 <=? n) && (n <=? 32))
   || (n =? 133) || (n =? 160))%nat.

Fixpoint lstrip (s : string) : string :=
  match s with
  | EmptyString => EmptyString
  | String c rest => if is_space c then lstrip rest else s
  end.

Fixpoint rstrip (s : string) : string :=
  match s with
  | EmptyString => EmptyString
  | String c rest =>
      match rstrip rest with
      | EmptyString => if is_space c then EmptyString else String c EmptyString
      | r => String c r
      end
  end.

Definition strip (s : string) : string := rstrip (lstrip s).

(* ------------------------------------------------------------------ *)
(** ** The world outside the process *)

(** The calls that leave the process, in the order they are made.  A
    client is named by the length of the trace when it was constructed. *)
Inductive event : Type :=
| EvClient
| EvLogin (c : nat) (auth_info_1 auth_info_2 password : pyval)
| EvSearchTweet (c : nat) (query count : pyval)
| EvGetTrends (c : nat)
| EvNow.

Definition trace : Type := list event.

(** The result of [json.loads] on a [str]: a document,
    [JSONDecodeError] with its message, or another exception (the
    [ValueError] of the limit on the digits of an integer, a
    [RecursionError]), which [except json.JSONDecodeError] lets pass. *)
Inductive loads_result : Type :=
| Decoded (v : pyval)
| JSONDecodeError (msg : string)
| LoadsRaises (e : exn).

Record Env : Type := {
  (** [Client('en-US')]: [None] when the constructor returns *)
  Client_new : trace -> option exn;
  (** [client.login(auth_info_1=, auth_info_2=, password=)] *)
  Client_login : trace -> nat -> pyval -> pyval -> pyval -> option exn;
  (** [client.search_tweet(query, product='Latest', count=count)] *)
  Client_search_tweet : trace -> nat -> pyval -> pyval -> outcome (list pyval);
  (** [client.get_trends('trending')] *)
  Client_get_trends : trace -> nat -> outcome (list pyval);
  (** [datetime.now().isoformat()] *)
  now_isoformat : trace -> string;
  (** [datetime.strptime(s, '%a %b %d %H:%M:%S %z %Y').isoformat()];
      [None] when [strptime] raises [ValueError] *)
  strptime_isoformat : string -> option string;
  (** [json.loads] *)
  json_loads : string -> loads_result;
  (** [str(v)] for the values whose text is not fixed below *)
  repr_other : pyval -> string;
  (** [traceback.format_exc()] while [e] is being handled *)
  format_exc : exn -> string
}.

(** [str(v)], also what an f-string field prints. *)
Definition py_str (env : Env) (v : pyval) : string :=
  match v with
  | VNone => "None"
  | VBool true => "True"
  | VBool false => "False"
  | VInt z => string_of_Z z
  | VStr s => s
  | _ => repr_other env v
  end.

(* ------------------------------------------------------------------ *)
(** ** The bridge object and the state of the process *)

Record TwikitBridge : Type := {
  client : option nat;
  initialized : bool;
  username : pyval;
  email : pyval;
  password : pyval
}.

(** [TwikitBridge.__init__] *)
Definition TwikitBridge_init : TwikitBridge :=
  {| client := None; initialized := false;
     username := VNone; email := VNone; password := VNone |}.

Record state : Type := {
  bridge : TwikitBridge;
  calls : trace;
  stdout : list pyval
}.

(** A computation that reads and writes the state and may raise; what it
    wrote before raising stays written. *)
Definition M (A : Type) : Type := state -> outcome A * state.

Definition ret {A : Type} (a : A) : M A := fun st => (Ok a, st).

Definition raise {A : Type} (e : exn) : M A := fun st => (Raise e, st).

Definition bind {A B : Type} (m : M A) (k : A -> M B) : M B :=
  fun st =>
    match m st with
    | (Ok a, st') => k a st'
    | (Raise e, st') => (Raise e, st')
    end.

(** [try: body  except Exception as e: handler e] *)
Definition try_except {A : Type} (body : M A) (handler : exn -> M A) : M A :=
  fun st =>
    match body st with
    | (Ok a, st') => (Ok a, st')
    | (Raise e, st') => handler e st'
    end.

Definition lift {A : Type} (o : outcome A) : M A := fun st => (o, st).

Declare Scope py_scope.
Delimit Scope py_scope with py.
Notation "x <- m ;; k" := (bind m (fun x => k))
  (at level 61, m at next level, right associativity) : py_scope.
Notation "m ;;; k" := (bind m (fun _ => k))
  (at level 61, right associativity) : py_scope.
Open Scope py_scope.

Definition get_bridge : M TwikitBridge := fun st => (Ok (bridge st), st).

Definition set_bridge (b : TwikitBridge) : M unit :=
  fun st => (Ok tt, {| bridge := b; calls := calls st; stdout := stdout st |}).

(** Assignment to a field of [self]. *)
Definition assign (f : TwikitBridge -> TwikitBridge) : M unit :=
  b <- get_bridge ;; set_bridge (f b).

Definition with_username (v : pyval) (b : TwikitBridge) : TwikitBridge :=
  {| client := client b; initialized := initialized b;
     username := v; email := email b; password := password b |}.

Definition with_email (v : pyval) (b : TwikitBridge) : TwikitBridge :=
  {| client := client b; initialized := initialized b;
     username := username b; email := v; password := password b |}.

Definition with_password (v : pyval) (b : TwikitBridge) : TwikitBridge :=
  {| client := client b; initialized := initialized b;
     username := username b; email := email b; password := v |}.

Definition with_client (c : option nat) (b : TwikitBridge) : TwikitBridge :=
  {| client := c; initialized := initialized b;
     username := username b; email := email b; password := password b |}.

Definition with_initialized (i : bool) (b : TwikitBridge) : TwikitBridge :=
  {| client := client b; initialized := i;
     username := username b; email := email b; password := password b |}.

Definition record (ev : event) (st : state) : state :=
  {| bridge := bridge st; calls := calls st ++ [ev]; stdout := stdout st |}.

(** [print(json.dumps(doc), flush=True)] for a document already encoded *)
Definition print (doc : pyval) (st : state) : state :=
  {| bridge := bridge st; calls := calls st; stdout := stdout st ++ [doc] |}.

(** [hasattr(v, name)]: false on any [AttributeError]. *)
Definition hasattr (v : pyval) (name : string) : M bool :=
  match py_getattr v name with
  | Missing => ret false
  | Has _ => ret true
  | Raising e => if is_attribute_error e then ret false else raise e
  end.

(** [getattr(v, name, default)]: the default on any [AttributeError]. *)
Definition getattr (v : pyval) (name : string) (default : pyval) : M pyval :=
  match py_getattr v name with
  | Missing => ret default
  | Has x => ret x
  | Raising e => if is_attribute_error e then ret default else raise e
  end.

(** [v.name] *)
Definition getfield (v : pyval) (name : string) : M pyval :=
  match py_getattr v name with
  | Missing =>
      raise (Exn AttributeError
               ("'" ++ type_name v ++ "' object has no attribute '" ++ name ++ "'"))
  | Has x => ret x
  | Raising e => raise e
  end.

(** [d.get(key, default)]; only a [dict] has the method. *)
Definition dict_get (d : pyval) (key : string) (default : pyval) : M pyval :=
  match d with
  | VDict kv =>
      match assoc key kv with
      | Some v => ret v
      | None => ret default
      end
  | _ =>
      raise (Exn AttributeError
               ("'" ++ type_name d ++ "' object has no attribute 'get'"))
  end.

Section Bridge.

Variable env : Env.

(** [datetime.now().isoformat()] *)
Definition datetime_now : M string :=
  fun st => (Ok (now_isoformat env (calls st)), record EvNow st).

(** [Client('en-US')] *)
Definition new_client : M nat :=
  fun st =>
    match Client_new env (calls st) with
    | None => (Ok (length (calls st)), record EvClient st)
    | Some e => (Raise e, record EvClient st)
    end.

Definition login (c : nat) (u e p : pyval) : M unit :=
  fun st =>
    match Client_login env (calls st) c u e p with
    | None => (Ok tt, record (EvLogin c u e p) st)
    | Some ex => (Raise ex, record (EvLogin c u e p) st)
    end.

Definition search_tweet (c : nat) (query count : pyval) : M (list pyval) :=
  fun st =>
    (Client_search_tweet env (calls st) c query count,
     record (EvSearchTweet c query count) st).

Definition get_trends (c : nat) : M (list pyval) :=
  fun st => (Client_get_trends env (calls st) c, record (EvGetTrends c) st).

(* ------------------------------------------------------------------ *)
(** ** [TwikitBridge.initialize] *)

Definition initialize_success (u : pyval) : pyval :=
  VDict [("success", VBool true);
         ("message", VStr "Twikit client initialized successfully");
         ("username", u)].

Definition auth_error (e : exn) : pyval :=
  VDict [("success", VBool false);
         ("error", VStr ("Twikit authentication failed: " ++ exn_str e));
         ("type", VStr "AUTH_ERROR")].

Definition unknown_error (what : string) (e : exn) : pyval :=
  VDict [("success", VBool false);
         ("error", VStr (what ++ exn_str e));
         ("type", VStr "UNKNOWN_ERROR");
         ("traceback", VStr (format_exc env e))].

Definition initialize (u e p : pyval) : M pyval :=
  try_except
    (assign (with_username u) ;;;
     assign (with_email e) ;;;
     assign (with_password p) ;;;
     c <- new_client ;;
     assign (with_client (Some c)) ;;;
     login c u e p ;;;
     assign (with_initialized true) ;;;
     ret (initialize_success u))
    (fun ex =>
       if is_twikit ex then ret (auth_error ex)
       else ret (unknown_error "Initialization failed: " ex)).

(* ------------------------------------------------------------------ *)
(** ** [TwikitBridge.search_tweets] *)

Definition not_initialized : pyval :=
  VDict [("success", VBool false);
         ("error", VStr "Client not initialized. Call initialize first.");
         ("type", VStr "NOT_INITIALIZED")].

Definition api_error (e : exn) : pyval :=
  VDict [("success", VBool false);
         ("error", VStr ("Twitter API error: " ++ exn_str e));
         ("type", VStr "API_ERROR")].

(** [not self.client] *)
Definition no_client (b : TwikitBridge) : bool :=
  match client b with Some _ => false | None => true end.

(** [self.client], about to be called as a client *)
Definition the_client (attribute : string) : M nat :=
  b <- get_bridge ;;
  match client b with
  | Some c => ret c
  | None =>
      raise (Exn AttributeError
               ("'NoneType' object has no attribute '" ++ attribute ++ "'"))
  end.

(** The inner loop [for media in tweet.media]. *)
Fixpoint media_loop (items media_urls : list pyval) : M (list pyval) :=
  match items with
  | [] => ret media_urls
  | media :: rest =>
      h <- hasattr media "media_url_https" ;;
      if h then
        url <- getfield media "media_url_https" ;;
        media_loop rest (media_urls ++ [url])
      else media_loop rest media_urls
  end.

Definition extract_media (tweet : pyval) : M (list pyval) :=
  h <- hasattr tweet "media" ;;
  if h then
    m <- getfield tweet "media" ;;
    if truthy m then
      m <- getfield tweet "media" ;;
      items <- lift (py_iter m) ;;
      media_loop items []
    else ret []
  else ret [].

(** [datetime.strptime(created_at, '%a %b %d %H:%M:%S %z %Y').isoformat()];
    the text of the exceptions is never looked at by the caller. *)
Definition strptime (created_at : pyval) : M string :=
  match created_at with
  | VStr s =>
      match strptime_isoformat env s with
      | Some iso => ret iso
      | None =>
          raise (Exn ValueError
                   ("time data '" ++ s
                      ++ "' does not match format '%a %b %d %H:%M:%S %z %Y'"))
      end
  | _ =>
      raise (Exn TypeError
               ("strptime() argument 1 must be str, not " ++ type_name created_at))
  end.

(** The block [if created_at: try: ... except: ... else: ...]. *)
Definition parse_timestamp (created_at : pyval) : M string :=
  if truthy created_at then
    try_except (strptime created_at) (fun _ => datetime_now)
  else datetime_now.

(** The body of [try:] inside [for tweet in tweets], up to [tweet_data]. *)
Definition map_tweet (tweet : pyval) : M pyval :=
  media_urls <- extract_media tweet ;;
  favorite_count <- getattr tweet "favorite_count" (VInt 0) ;;
  let like_count := py_or favorite_count (VInt 0) in
  retweets <- getattr tweet "retweet_count" (VInt 0) ;;
  let retweet_count := py_or retweets (VInt 0) in
  replies <- getattr tweet "reply_count" (VInt 0) ;;
  let reply_count := py_or replies (VInt 0) in
  views <- getattr tweet "view_count" (VInt 0) ;;
  let view_count := py_or views (VInt 0) in
  created_at <- getattr tweet "created_at" VNone ;;
  timestamp <- parse_timestamp created_at ;;
  user <- getattr tweet "user" VNone ;;
  author_name <- (if truthy user then getattr user "name" (VStr "Unknown")
                  else ret (VStr "Unknown")) ;;
  author_username <- (if truthy user then getattr user "screen_name" (VStr "unknown")
                      else ret (VStr "unknown")) ;;
  id_ <- getattr tweet "id" (VStr "") ;;
  id_str <- getattr tweet "id_str" (VStr (py_str env id_)) ;;
  text <- getattr tweet "text" (VStr "") ;;
  full_text <- getattr tweet "full_text" text ;;
  id_str' <- getattr tweet "id_str" (VStr "") ;;
  ret (VDict [("id", id_str);
              ("text", full_text);
              ("author", author_name);
              ("username", author_username);
              ("timestamp", VStr timestamp);
              ("url", VStr ("https://twitter.com/" ++ py_str env author_username
                              ++ "/status/" ++ py_str env id_str'));
              ("likes", like_count);
              ("retweets", retweet_count);
              ("replies", reply_count);
              ("views", view_count);
              ("images", VList media_urls);
              ("platform", VStr "twitter")]).

(** [for tweet in tweets: try: ... results.append(tweet_data)
    except Exception: continue] *)
Fixpoint tweets_loop (tweets results : list pyval) : M (list pyval) :=
  match tweets with
  | [] => ret results
  | tweet :: rest =>
      results' <- try_except
                    (tweet_data <- map_tweet tweet ;; ret (results ++ [tweet_data]))
                    (fun _ => ret results) ;;
      tweets_loop rest results'
  end.

Definition search_success (results : list pyval) (query : pyval) : pyval :=
  VDict [("success", VBool true);
         ("tweets", VList results);
         ("count", VInt (Z.of_nat (length results)));
         ("query", query)].

Definition search_tweets (query count : pyval) : M pyval :=
  b <- get_bridge ;;
  if negb (initialized b) || no_client b then ret not_initialized
  else
    try_except
      (c <- the_client "search_tweet" ;;
       tweets <- search_tweet c query count ;;
       results <- tweets_loop tweets [] ;;
       ret (search_success results query))
      (fun ex =>
         if is_twikit ex then ret (api_error ex)
         else ret (unknown_error "Search failed: " ex)).

(* ------------------------------------------------------------------ *)
(** ** [TwikitBridge.get_trending] *)

Definition map_trend (trend : pyval) : M pyval :=
  name <- getattr trend "name" (VStr "") ;;
  url <- getattr trend "url" (VStr "") ;;
  tweet_volume <- getattr trend "tweet_volume" VNone ;;
  ret (VDict [("name", name);
              ("url", url);
              ("tweet_volume", tweet_volume);
              ("platform", VStr "twitter")]).

Fixpoint trends_loop (trends results : list pyval) : M (list pyval) :=
  match trends with
  | [] => ret results
  | trend :: rest =>
      results' <- try_except
                    (trend_data <- map_trend trend ;; ret (results ++ [trend_data]))
                    (fun _ => ret results) ;;
      trends_loop rest results'
  end.

Definition trending_success (results : list pyval) : pyval :=
  VDict [("success", VBool true);
         ("trends", VList results);
         ("count", VInt (Z.of_nat (length results)))].

Definition get_trending (count : pyval) : M pyval :=
  b <- get_bridge ;;
  if negb (initialized b) || no_client b then ret not_initialized
  else
    try_except
      (c <- the_client "get_trends" ;;
       trends <- get_trends c ;;
       bound <- lift (py_min count (Z.of_nat (length trends))) ;;
       kept <- lift (py_slice_to trends bound) ;;
       results <- trends_loop kept [] ;;
       ret (trending_success results))
      (fun ex =>
         if is_twikit ex then ret (api_error ex)
         else ret (unknown_error "Trending fetch failed: " ex)).

(* ------------------------------------------------------------------ *)
(** ** [handle_request] *)

Definition result_envelope (result request_id : pyval) : pyval :=
  VDict [("jsonrpc", VStr "2.0"); ("result", result); ("id", request_id)].

Definition method_not_found (method request_id : pyval) : pyval :=
  VDict [("jsonrpc", VStr "2.0");
         ("error", VDict [("code", VInt (-32601));
                          ("message", VStr ("Method not found: " ++ py_str env method))]);
         ("id", request_id)].

Definition internal_error (e : exn) (request_id : pyval) : pyval :=
  VDict [("jsonrpc", VStr "2.0");
         ("error", VDict [("code", VInt (-32603));
                          ("message", VStr ("Internal error: " ++ exn_str e));
                          ("data", VStr (format_exc env e))]);
         ("id", request_id)].

(** The body of [try:] in [handle_request]. *)
Definition dispatch (method params request_id : pyval) : M pyval :=
  if py_eq_str method "initialize" then
    u <- dict_get params "username" VNone ;;
    e <- dict_get params "email" VNone ;;
    p <- dict_get params "password" VNone ;;
    result <- initialize u e p ;;
    ret (result_envelope result request_id)
  else if py_eq_str method "search" then
    query <- dict_get params "query" VNone ;;
    count <- dict_get params "count" (VInt 20) ;;
    result <- search_tweets query count ;;
    ret (result_envelope result request_id)
  else if py_eq_str method "trending" then
    count <- dict_get params "count" (VInt 20) ;;
    result <- get_trending count ;;
    ret (result_envelope result request_id)
  else ret (method_not_found method request_id).

Definition handle_request (request : pyval) : M pyval :=
  method <- dict_get request "method" VNone ;;
  params <- dict_get request "params" (VDict []) ;;
  request_id <- dict_get request "id" VNone ;;
  try_except (dispatch method params request_id)
    (fun e => ret (internal_error e request_id)).

(* ------------------------------------------------------------------ *)
(** ** [main] *)

Definition ready : pyval :=
  VDict [("status", VStr "ready"); ("version", VStr "1.0.0")].

Definition parse_error (msg : string) : pyval :=
  VDict [("jsonrpc", VStr "2.0");
         ("error", VDict [("code", VInt (-32700));
                          ("message", VStr ("Parse error: " ++ msg))]);
         ("id", VNone)].

Definition server_error (e : exn) : pyval :=
  VDict [("jsonrpc", VStr "2.0");
         ("error", VDict [("code", VInt (-32603));
                          ("message", VStr ("Server error: " ++ exn_str e));
                          ("data", VStr (format_exc env e))]);
         ("id", VNone)].

(** [print(json.dumps(v), flush=True)] *)
Definition print_json (v : pyval) : M unit :=
  doc <- lift (json_dumps v) ;;
  fun st => (Ok tt, print doc st).

(** One turn of [while True] for a line that [readline] returned
    (the test for the end of the input is in [main_loop]). *)
Definition loop_body (line : string) : M unit :=
  try_except
    (let line := strip line in
     if line =? "" then ret tt
     else
       match json_loads env line with
       | JSONDecodeError msg => print_json (parse_error msg)
       | LoadsRaises e => raise e
       | Decoded request =>
           response <- handle_request request ;;
           print_json response
       end)
    (fun e => print_json (server_error e)).

(** [stdin] lists what the successive calls of [readline] return; after
    the last one, and at an empty string, [readline] reports the end of
    the input.  An exception that leaves the loop ends [main]. *)
Fixpoint main_loop (stdin : list string) : M unit :=
  match stdin with
  | [] => ret tt
  | line :: rest =>
      if line =? "" then ret tt
      else loop_body line ;;; main_loop rest
  end.

Definition start : state :=
  {| bridge := TwikitBridge_init; calls := []; stdout := [] |}.

Definition main (stdin : list string) : outcome unit * state :=
  (print_json ready ;;; main_loop stdin) start.

End Bridge.

(* ------------------------------------------------------------------ *)
(** ** Notions used by the statements *)

(** The two fields of the bridge that make the session: the flag
    [initialized] and the identity [username]. *)
Definition session_state (b : TwikitBridge) : bool * pyval :=
  (initialized b, username b).

(** The three operations of the bridge. *)
Inductive operation : Type :=
| OpInitialize (u e p : pyval)
| OpSearch (query count : pyval)
| OpTrending (count : pyval).

Definition run_op (env : Env) (op : operation) : M pyval :=
  match op with
  | OpInitialize u e p => initialize env u e p
  | OpSearch query count => search_tweets env query count
  | OpTrending count => get_trending env count
  end.

(** The exception, if any, with which the client answers the two calls
    that [initialize u e p] makes from the state [st]. *)
Definition initialize_failure (env : Env) (u e p : pyval) (st : state) : option exn :=
  match Client_new env (calls st) with
  | Some ex => Some ex
  | None => Client_login env (calls st ++ [EvClient]) (length (calls st)) u e p
  end.

(** The client accepts the credentials whenever they are presented. *)
Definition accepts (env : Env) (u e p : pyval) : Prop :=
  (forall tr, Client_new env tr = None) /\
  (forall tr c, Client_login env tr c u e p = None).

(** [n] calls of [initialize] in a row; the payloads, first call first. *)
Fixpoint repeat_initialize (env : Env) (n : nat) (u e p : pyval) : M (list pyval) :=
  match n with
  | O => ret []
  | S k =>
      r <- initialize env u e p ;;
      rs <- repeat_initialize env k u e p ;;
      ret (r :: rs)
  end.

(** Reading an entry of a document. *)
Definition entry (key : string) (doc : pyval) : option pyval :=
  match doc with
  | VDict kv => assoc key kv
  | _ => None
  end.

(** The rule of the timestamp in the words of the specification: the
    ISO-8601 rendering when [created_at] is a text in the fixed format,
    the wall-clock time otherwise.  The empty text is not in the format. *)
Definition spec_parsed_date (env : Env) (created_at : pyval) : option string :=
  match created_at with
  | VStr s => if s =? "" then None else strptime_isoformat env s
  | _ => None
  end.

Definition spec_timestamp (env : Env) (created_at : pyval) (tr : trace) : string :=
  match spec_parsed_date env created_at with
  | Some iso => iso
  | None => now_isoformat env tr
  end.

Definition is_ok {A : Type} (r : outcome A * state) : bool :=
  match fst r with Ok _ => true | Raise _ => false end.

(** The payload of a failed [initialize]. *)
Definition initialize_failed (env : Env) (ex : exn) : pyval :=
  if is_twikit ex then auth_error ex
  else unknown_error env "Initialization failed: " ex.

(** The payload of a failed [search_tweets] or [get_trending]. *)
Definition call_failed (env : Env) (what : string) (ex : exn) : pyval :=
  if is_twikit ex then api_error ex else unknown_error env what ex.

(** The [id] that [handle_request] reads from a request object. *)
Definition request_id_of (kv : list (string * pyval)) : pyval :=
  match assoc "id" kv with
  | Some v => v
  | None => VNone
  end.

(** The line that answers a response of the dispatcher: the response,
    or the server error when [json.dumps] rejects it. *)
Definition written (env : Env) (response : pyval) : pyval :=
  match json_dumps response with
  | Ok doc => doc
  | Raise e => server_error env e
  end.

Definition is_dict (v : pyval) : bool :=
  match v with VDict _ => true | _ => false end.

(** The methods of the dispatch table. *)
Definition known_method (method : pyval) : bool :=
  py_eq_str method "initialize" || py_eq_str method "search"
  || py_eq_str method "trending".

(** What [v.get] raises when [v] is no [dict]. *)
Definition no_get (v : pyval) : exn :=
  Exn AttributeError ("'" ++ type_name v ++ "' object has no attribute 'get'").

(** [total m]: [m] returns from every state. *)
Definition total {A : Type} (m : M A) : Prop :=
  forall st, exists a st', m st = (Ok a, st').

(** [pure m]: [m] neither reads nor writes the state. *)
Definition pure {A : Type} (m : M A) : Prop :=
  forall st, m st = (fst (m start), st).

(** [preserves I m]: every run of [m] relates the state before to the
    state after by [I]. *)
Definition preserves {A : Type} (I : state -> state -> Prop) (m : M A) : Prop :=
  forall st, I st (snd (m st)).

Definition same_bridge_stdout (st st' : state) : Prop :=
  bridge st' = bridge st /\ stdout st' = stdout st.

Definition same_stdout (st st' : state) : Prop := stdout st' = stdout st.

Definition flag_kept (st st' : state) : Prop :=
  initialized (bridge st) = true -> initialized (bridge st') = true.

(** [quiet m]: [m] writes neither the bridge nor the output. *)
Definition quiet {A : Type} (m : M A) : Prop := preserves same_bridge_stdout m.

(** [sim R m m']: from any two states, [m] and [m'] both raise, or both
    return, and then with results related by [R]. *)
Definition sim {A : Type} (R : A -> A -> Prop) (m m' : M A) : Prop :=
  forall st st',
    match fst (m st), fst (m' st') with
    | Ok a, Ok a' => R a a'
    | Raise _, Raise _ => True
    | _, _ => False
    end.

Definition any {A : Type} (_ _ : A) : Prop := True.

(** Reading the attribute with [hasattr] or three-argument [getattr]
    raises: it is a property that raises something else than
    [AttributeError]. *)
Definition raises {V : Type} (a : attr V) : bool :=
  match a with
  | Raising e => negb (is_attribute_error e)
  | _ => false
  end.

(** Two raw tweets that differ at most in the value of [created_at]. *)
Definition same_but_created_at (t t' : pyval) : Prop :=
  (forall name, name <> "created_at" -> py_getattr t name = py_getattr t' name) /\
  raises (py_getattr t "created_at") = raises (py_getattr t' "created_at").

(** The raw item maps: the body of the inner [try] does not raise. *)
Definition maps (f : pyval -> M pyval) (raw : pyval) : bool := is_ok (f raw start).

(** Number of raw items whose mapping raises. *)
Definition dropped_count (f : pyval -> M pyval) (raws : list pyval) : nat :=
  length (filter (fun raw => negb (maps f raw)) raws).

(** [items] are the images of the raw items that map, in their order. *)
Definition mapped_from (f : pyval -> M pyval) (raws items : list pyval) : Prop :=
  Forall2 (fun raw item => exists st, fst (f raw st) = Ok item)
    (filter (maps f) raws) items.

(** The contract of the dispatcher for a failure inside a handler, in the
    words of the specification: code -32603, message "Internal error:
    <detail>", diagnostic data, the id of the request. *)
Definition internal_error_contract (request_id response : pyval) : Prop :=
  exists detail data,
    response =
    VDict [("jsonrpc", VStr "2.0");
           ("error", VDict [("code", VInt (-32603));
                            ("message", VStr ("Internal error: " ++ detail));
                            ("data", VStr data)]);
           ("id", request_id)].

(** The response is the answer to a line that could not be decoded. *)
Definition is_parse_error (response : pyval) : bool :=
  match entry "error" response with
  | Some err =>
      match entry "code" err with
      | Some (VInt code) => (code =? -32700)%Z
      | _ => false
      end
  | None => false
  end.

(* ------------------------------------------------------------------ *)
(** ** A stub of the world, for running the bridge on concrete input *)

Module Stub.

Definition dq : string := String (ascii_of_nat 34) EmptyString.

(** Compact JSON text of the documents the examples send. *)
Fixpoint encode (v : pyval) : string :=
  match v with
  | VNone => "null"
  | VBool true => "true"
  | VBool false => "false"
  | VInt z => string_of_Z z
  | VStr s => dq ++ s ++ dq
  | VList l =>
      "[" ++ (fix items (l : list pyval) : string :=
                match l with
                | [] => ""
                | [x] => encode x
                | x :: rest => (encode x ++ "," ++ items rest)%string
                end) l ++ "]"
  | VDict kv =>
      "{" ++ (fix entries (kv : list (string * pyval)) : string :=
                match kv with
                | [] => ""
                | [(k, x)] => (dq ++ k ++ dq ++ ":" ++ encode x)%string
                | (k, x) :: rest =>
                    (dq ++ k ++ dq ++ ":" ++ encode x ++ "," ++ entries rest)%string
                end) kv ++ "}"
  | _ => "null"
  end.

Definition request (method : string) (params : list (string * pyval)) (id : pyval)
  : pyval :=
  VDict [("jsonrpc", VStr "2.0"); ("method", VStr method);
         ("params", VDict params); ("id", id)].

Definition req_initialize : pyval :=
  request "initialize"
    [("username", VStr "u"); ("email", VStr "e"); ("password", VStr "p")] (VInt 1).

Definition req_search : pyval :=
  request "search" [("query", VStr "cats"); ("count", VInt 2)] (VInt 2).

Definition req_trending (count : Z) (id : Z) : pyval :=
  request "trending" [("count", VInt count)] (VInt id).

Definition req_delete : pyval := request "delete" [] (VInt 9).

(** A request whose [params] is an array. *)
Definition req_bad_params : pyval :=
  VDict [("jsonrpc", VStr "2.0"); ("method", VStr "search");
         ("params", VList [VInt 1]); ("id", VInt 7)].

(** The documents the stub decoder knows; any other line is malformed. *)
Definition known_documents : list pyval :=
  [req_initialize; req_search; req_trending 1 3; req_trending (-1) 4;
   req_delete; req_bad_params; VList [VInt 1]; VInt 5; VNone].

Fixpoint decode (documents : list pyval) (line : string) : loads_result :=
  match documents with
  | [] => JSONDecodeError "Expecting value: line 1 column 1 (char 0)"
  | d :: rest => if encode d =? line then Decoded d else decode rest line
  end.

(** The limit of [json.loads] on the digits of an integer: a line of
    more than 4300 digits raises [ValueError], not [JSONDecodeError]. *)
Definition is_digit (c : ascii) : bool :=
  let n := nat_of_ascii c in ((48 <=? n) && (n <=? 57))%nat.

Definition over_digit_limit (line : string) : bool :=
  forallb is_digit (list_ascii_of_string line) && (4300 <? String.length line)%nat.

Definition digit_limit_error (line : string) : exn :=
  Exn ValueError
    ("Exceeds the limit (4300 digits) for integer string conversion: value has "
       ++ string_of_Z (Z.of_nat (String.length line))
       ++ " digits; use sys.set_int_max_str_digits() to increase the limit").

Definition loads (line : string) : loads_result :=
  if over_digit_limit line then LoadsRaises (digit_limit_error line)
  else decode known_documents line.

(** The line made of [n] times the digit 9. *)
Fixpoint nines (n : nat) : string :=
  match n with
  | O => EmptyString
  | S k => String "9" (nines k)
  end.

Definition tweet (id text created_at : string) : pyval :=
  VObj "Tweet"
    [("id", Has (VStr id)); ("id_str", Has (VStr id)); ("text", Has (VStr text));
     ("created_at", Has (VStr created_at));
     ("favorite_count", Has (VInt 3)); ("retweet_count", Has VNone);
     ("user", Has (VObj "User" [("name", Has (VStr "Cat Fan"));
                               ("screen_name", Has (VStr "catfan"))]));
     ("media", Has (VList [VObj "Photo"
                             [("media_url_https", Has (VStr "https://pbs.example/1.jpg"))]]))].

(** A tweet whose [user] property raises [KeyError]. *)
Definition broken_tweet : pyval :=
  VObj "Tweet" [("id_str", Has (VStr "13"));
                ("user", Raising (Exn OtherException "'user_results'"))].

Definition trend (name : string) : pyval :=
  VObj "Trend" [("name", Has (VStr name)); ("tweet_volume", Has (VInt 1200))].

Definition good_date : string := "Mon Jan 05 10:00:00 +0000 2026".

Definition search (query : pyval) : outcome (list pyval) :=
  if py_eq_str query "cats" then
    Ok [tweet "11" "cats!" good_date; tweet "12" "more cats" "yesterday"]
  else if py_eq_str query "five" then
    Ok [tweet "21" "a" good_date; tweet "22" "b" good_date; broken_tweet;
        tweet "24" "d" good_date; tweet "25" "e" good_date]
  else if py_eq_str query "down" then
    Raise (Exn TwikitException "status: 503")
  else Ok [].

Definition env : Env :=
  {| Client_new := fun _ => None;
     Client_login := fun _ _ _ _ p =>
       if py_eq_str p "wrong"
       then Some (Exn TwikitException "Could not authenticate you")
       else None;
     Client_search_tweet := fun _ _ query _ => search query;
     Client_get_trends := fun _ _ => Ok [trend "#one"; trend "#two"; trend "#three"];
     now_isoformat := fun _ => "2026-11-03T12:00:00.000000";
     strptime_isoformat := fun s =>
       if s =? good_date then Some "2026-01-05T10:00:00+00:00" else None;
     json_loads := loads;
     repr_other := fun _ => "<object>";
     format_exc := fun e =>
       ("Traceback (most recent call last): " ++ exn_str e)%string |}.

(** The bridge after a successful [initialize]. *)
Definition logged_in : state :=
  snd (initialize env (VStr "u") (VStr "e") (VStr "p") start).

(** The state after the line of [req_initialize] went through the loop. *)
Definition logged_in_after_request : state :=
  snd (main_loop env [encode req_initialize] start).

End Stub.

(* ------------------------------------------------------------------ *)
(** ** The file as a script: its imports and its entry point *)

(** What the three [import] statements at the top of the file do: for
    each, the text of the [ImportError] it raises, if it raises one. *)
Record Imports : Type := {
  (** [from twikit import Client] *)
  import_Client : option string;
  (** [from twikit.errors import TwitterException as TwikitException] *)
  import_TwitterException : option string;
  (** [from twikit.errors import TwikitException], the fallback *)
  import_TwikitException : option string
}.

(** The [ImportError] that reaches the outer [except], if any: the
    second import of the exception class is tried only when the first
    one fails. *)
Definition import_twikit (i : Imports) : option string :=
  match import_Client i with
  | Some msg => Some msg
  | None =>
      match import_TwitterException i with
      | None => None
      | Some _ => import_TwikitException i
      end
  end.

Definition import_error (msg : string) : pyval :=
  VDict [("jsonrpc", VStr "2.0");
         ("error", VDict [("code", VInt (-32001));
                          ("message",
                           VStr ("twikit not installed or import error: " ++ msg
                                   ++ ". Run: pip install twikit"))]);
         ("id", VNone)].

(** The document of the [except] under [if __name__ == '__main__']. *)
Definition fatal_error (env : Env) (e : exn) : pyval :=
  VDict [("status", VStr "error");
         ("message", VStr (exn_str e));
         ("traceback", VStr (format_exc env e))].

(** Running the file: the exit status of the process and its last state.
    A failed import prints one document and exits with status 1 before
    anything is read; otherwise [asyncio.run(main())] runs, and an
    exception that leaves it is printed and turned into status 1. *)
Definition script (env : Env) (imports : Imports) (stdin : list string) : Z * state :=
  match import_twikit imports with
  | Some msg => (1%Z, snd (print_json (import_error msg) start))
  | None =>
      match main env stdin with
      | (Ok _, st) => (0%Z, st)
      | (Raise e, st) => (1%Z, snd (print_json (fatal_error env e) st))
      end
  end.

(* ------------------------------------------------------------------ *)
(** ** More notions for the statements *)

(** The lines that the loop reads: those before the first empty string,
    which is how [readline] reports the end of the input. *)
Fixpoint before_eof (stdin : list string) : list string :=
  match stdin with
  | [] => []
  | line :: rest => if line =? "" then [] else line :: before_eof rest
  end.

(** The line is made of white space only. *)
Definition whitespace_only (line : string) : bool :=
  forallb is_space (list_ascii_of_string line).

(** The lines read that are not blank after [strip]. *)
Definition nonblank_lines (stdin : list string) : list string :=
  filter (fun line => negb (strip line =? "")) (before_eof stdin).

(** [json.dumps] accepts the document. *)
Definition serializable (v : pyval) : Prop := unserializable v = None.

(** A bridge whose flag is set has a client. *)
Definition has_client_if_initialized (b : TwikitBridge) : Prop :=
  initialized b = true -> client b <> None.

Definition keeps_client_invariant (st st' : state) : Prop :=
  has_client_if_initialized (bridge st) -> has_client_if_initialized (bridge st').

(** The keys of a mapped tweet and of a mapped trend, in their order. *)
Definition tweet_keys : list string :=
  ["id"; "text"; "author"; "username"; "timestamp"; "url";
   "likes"; "retweets"; "replies"; "views"; "images"; "platform"].

Definition trend_keys : list string := ["name"; "url"; "tweet_volume"; "platform"].

Definition keys_of (doc : pyval) : list string :=
  match doc with
  | VDict kv => map fst kv
  | _ => []
  end.

(** The four business failures. *)
Definition failure_types : list string :=
  ["NOT_INITIALIZED"; "AUTH_ERROR"; "API_ERROR"; "UNKNOWN_ERROR"].

(** The payload is a business failure of one of the four types, with
    its text. *)
Definition is_failure_payload (payload : pyval) : Prop :=
  entry "success" payload = Some (VBool false) /\
  (exists text, entry "error" payload = Some (VStr text)) /\
  (exists type, entry "type" payload = Some (VStr type) /\ In type failure_types).

(** The URLs that the inner loop collects from media items none of
    which raises: those of the items that have the attribute. *)
Fixpoint media_urls_of (items : list pyval) : list pyval :=
  match items with
  | [] => []
  | media :: rest =>
      match py_getattr media "media_url_https" with
      | Has url => url :: media_urls_of rest
      | _ => media_urls_of rest
      end
  end.

Definition no_raising_url (media : pyval) : bool :=
  negb (raises (py_getattr media "media_url_https")).

(** The value has none of the attributes that the mappers read. *)
Definition attributeless (v : pyval) : Prop :=
  forall name, py_getattr v name = Missing.

(** A count that [min] cannot compare with an [int]. *)
Definition incomparable (count : pyval) : bool :=
  match count with
  | VNone | VStr _ | VList _ | VDict _ | VObj _ _ => true
  | _ => false
  end.

(** Reading a key of [params] the way [dict.get] does. *)
Definition param (params : list (string * pyval)) (key : string) (default : pyval)
  : pyval :=
  match assoc key params with
  | Some v => v
  | None => default
  end.

(** The operation that the dispatch table selects for a method and an
    object of parameters, with the arguments it extracts. *)
Definition operation_of (method : pyval) (params : list (string * pyval))
  : option operation :=
  if py_eq_str method "initialize" then
    Some (OpInitialize (param params "username" VNone) (param params "email" VNone)
            (param params "password" VNone))
  else if py_eq_str method "search" then
    Some (OpSearch (param params "query" VNone) (param params "count" (VInt 20)))
  else if py_eq_str method "trending" then
    Some (OpTrending (param params "count" (VInt 20)))
  else None.

(** [reads_clock n m]: all that a run of [m] adds to the trace is at
    most [n] readings of the clock. *)
Definition reads_clock {A : Type} (n : nat) (m : M A) : Prop :=
  forall st, exists k, k <= n /\ calls (snd (m st)) = calls st ++ repeat EvNow k.

(** The value of an attribute, or the default of [getattr] (for a
    missing attribute and for a property that raises [AttributeError]). *)
Definition attr_or (a : attr pyval) (default : pyval) : pyval :=
  match a with
  | Has v => v
  | _ => default
  end.

(** What [getattr(tweet, 'created_at', None)] gives. *)
Definition created_at_of (tweet : pyval) : pyval :=
  attr_or (py_getattr tweet "created_at") VNone.

(** The rule of the timestamp for a raw tweet and its item in a batch
    whose mapping starts with the trace [tr]: the ISO-8601 rendering
    when [created_at] is a non-empty text that [strptime] parses, and
    otherwise the wall-clock time, read after [tr] and some readings of
    the clock for the tweets before. *)
Definition timestamp_rule (env : Env) (tr : trace) (tweet item : pyval) : Prop :=
  (forall s iso,
      created_at_of tweet = VStr s -> s <> "" ->
      strptime_isoformat env s = Some iso ->
      entry "timestamp" item = Some (VStr iso)) /\
  (spec_parsed_date env (created_at_of tweet) = None ->
   exists j,
     entry "timestamp" item
     = Some (VStr (now_isoformat env (tr ++ repeat EvNow j)))).

(* ------------------------------------------------------------------ *)
(** ** Proof tools *)

Ltac unfold_m :=
  unfold try_except, bind, ret, raise, lift, assign, get_bridge, set_bridge,
    new_client, login, search_tweet, get_trends, the_client, datetime_now,
    record, print in *.

Create HintDb pure_db.
Create HintDb quiet_db.
Create HintDb keep_db.

(* ------------------------------------------------------------------ *)
(** ** Runs of the stubbed bridge *)

Example run_ready : snd (main Stub.env []) = print ready start.
Proof. reflexivity. Qed.

Example run_strip : strip (" " ++ "[1]" ++ String (ascii_of_nat 10) "") = "[1]".
Proof. reflexivity. Qed.

Example run_blank_line :
  snd (main_loop Stub.env [("   " ++ String (ascii_of_nat 10) "")%string] start)
  = start.
Proof. reflexivity. Qed.

(** The end-to-end scenario: [initialize], then [search] for two cats. *)
Example run_initialize_then_search :
  exists tweets,
    stdout (snd (main Stub.env [Stub.encode Stub.req_initialize;
                                Stub.encode Stub.req_search]))
    = [ready;
       result_envelope (initialize_success (VStr "u")) (VInt 1);
       result_envelope (search_success tweets (VStr "cats")) (VInt 2)] /\
    length tweets = 2 /\
    entry "count" (search_success tweets (VStr "cats")) = Some (VInt 2).
Proof. eexists. repeat split; vm_compute; reflexivity. Qed.

Example run_unknown_method :
  stdout (snd (main_loop Stub.env [Stub.encode Stub.req_delete] start))
  = [VDict [("jsonrpc", VStr "2.0");
            ("error", VDict [("code", VInt (-32601));
                             ("message", VStr "Method not found: delete")]);
            ("id", VInt 9)]].
Proof. vm_compute. reflexivity. Qed.

(** A capability failure is a business outcome, not a protocol error. *)
Example run_search_api_error :
  fst (search_tweets Stub.env (VStr "down") (VInt 20) Stub.logged_in)
  = Ok (VDict [("success", VBool false);
               ("error", VStr "Twitter API error: status: 503");
               ("type", VStr "API_ERROR")]).
Proof. vm_compute. reflexivity. Qed.

(** A count that is a text makes [min] raise inside [get_trending]. *)
Example run_trending_text_count :
  fst (get_trending Stub.env (VStr "3") Stub.logged_in)
  = Ok (unknown_error Stub.env "Trending fetch failed: "
          (Exn TypeError "'<' not supported between instances of 'int' and 'str'")).
Proof. vm_compute. reflexivity. Qed.

(** Python's slices: [l[:2]], [l[:-1]], [l[:-5]], [l[:9]]. *)
Example run_slice_to :
  slice_to [1; 2; 3] 2 = [1; 2] /\ slice_to [1; 2; 3] (-1) = [1; 2] /\
  slice_to [1; 2; 3] (-5) = [] /\ slice_to [1; 2; 3] 9 = [1; 2; 3].
Proof. repeat split. Qed.

(** [min(7.5, 5)] is [5]; [min(2.5, 5)] is [2.5], which is no slice bound. *)
Example run_min_float :
  py_min (VFloat (FFin (15 # 2))) 5 = Ok (VInt 5) /\
  py_min (VFloat (FFin (5 # 2))) 5 = Ok (VFloat (FFin (5 # 2))).
Proof. split; reflexivity. Qed.

(* ------------------------------------------------------------------ *)
(** ** The handlers, one equation each *)

Section Handlers.

Variable env : Env.

(** What [initialize] does, by the answers of the client. *)
Lemma initialize_eq (u e p : pyval) (st : state) :
  initialize env u e p st =
  let b := with_password p (with_email e (with_username u (bridge st))) in
  let c := length (calls st) in
  match Client_new env (calls st) with
  | Some ex =>
      (Ok (initialize_failed env ex),
       {| bridge := b; calls := calls st ++ [EvClient]; stdout := stdout st |})
  | None =>
      match Client_login env (calls st ++ [EvClient]) c u e p with
      | Some ex =>
          (Ok (initialize_failed env ex),
           {| bridge := with_client (Some c) b;
              calls := (calls st ++ [EvClient]) ++ [EvLogin c u e p];
              stdout := stdout st |})
      | None =>
          (Ok (initialize_success u),
           {| bridge := with_initialized true (with_client (Some c) b);
              calls := (calls st ++ [EvClient]) ++ [EvLogin c u e p];
              stdout := stdout st |})
      end
  end.
Proof.
  unfold initialize, initialize_failed. unfold_m. simpl.
  destruct (Client_new env (calls st)) as [ex|]; simpl.
  - destruct (is_twikit ex); reflexivity.
  - destruct (Client_login env (calls st ++ [EvClient]) (length (calls st)) u e p)
      as [ex|]; simpl; [destruct (is_twikit ex)|]; reflexivity.
Qed.

Lemma initialize_returns (u e p : pyval) (st : state) :
  exists r st', initialize env u e p st = (Ok r, st').
Proof.
  rewrite initialize_eq. cbv zeta.
  destruct (Client_new env (calls st)); [eauto|].
  destruct (Client_login env _ _ u e p); eauto.
Qed.

Lemma initialize_stdout (u e p : pyval) (st : state) :
  stdout (snd (initialize env u e p st)) = stdout st.
Proof.
  rewrite initialize_eq. cbv zeta.
  destruct (Client_new env (calls st)); [reflexivity|].
  destruct (Client_login env _ _ u e p); reflexivity.
Qed.

Lemma initialize_flag (u e p : pyval) (st : state) :
  initialized (bridge (snd (initialize env u e p st))) =
  match initialize_failure env u e p st with
  | Some _ => initialized (bridge st)
  | None => true
  end.
Proof.
  rewrite initialize_eq. unfold initialize_failure. cbv zeta.
  destruct (Client_new env (calls st)); [reflexivity|].
  destruct (Client_login env _ _ u e p); reflexivity.
Qed.

Lemma initialize_payload (u e p : pyval) (st : state) :
  fst (initialize env u e p st) =
  match initialize_failure env u e p st with
  | Some ex => Ok (initialize_failed env ex)
  | None => Ok (initialize_success u)
  end.
Proof.
  rewrite initialize_eq. unfold initialize_failure. cbv zeta.
  destruct (Client_new env (calls st)); [reflexivity|].
  destruct (Client_login env _ _ u e p); reflexivity.
Qed.

Lemma initialize_credentials (u e p : pyval) (st : state) :
  let b := bridge (snd (initialize env u e p st)) in
  username b = u /\ email b = e /\ password b = p.
Proof.
  rewrite initialize_eq. cbv zeta.
  destruct (Client_new env (calls st)); [simpl; auto|].
  destruct (Client_login env _ _ u e p); simpl; auto.
Qed.

Lemma initialize_failed_not_success (ex : exn) (u : pyval) :
  initialize_failed env ex <> initialize_success u.
Proof. unfold initialize_failed. destruct (is_twikit ex); discriminate. Qed.

(** The guard of [search_tweets] and [get_trending]. *)
Lemma search_tweets_guard (query count : pyval) (st : state) :
  initialized (bridge st) = false ->
  search_tweets env query count st = (Ok not_initialized, st).
Proof.
  intros H. unfold search_tweets. unfold_m. rewrite H. reflexivity.
Qed.

Lemma get_trending_guard (count : pyval) (st : state) :
  initialized (bridge st) = false ->
  get_trending env count st = (Ok not_initialized, st).
Proof.
  intros H. unfold get_trending. unfold_m. rewrite H. reflexivity.
Qed.

End Handlers.

(* ------------------------------------------------------------------ *)
(** ** Computations that leave the state alone *)

Section Combinators.

Context {A B : Type}.

Lemma pure_ret (a : A) : pure (ret a).
Proof. intros st. reflexivity. Qed.

Lemma pure_raise (e : exn) : pure (@raise A e).
Proof. intros st. reflexivity. Qed.

Lemma pure_lift (o : outcome A) : pure (lift o).
Proof. intros st. reflexivity. Qed.

Lemma pure_bind (m : M A) (k : A -> M B) :
  pure m -> (forall a, pure (k a)) -> pure (bind m k).
Proof.
  intros Hm Hk st. unfold bind. rewrite (Hm st).
  pose proof (Hm start) as H0.
  destruct (m start) as [[a|e] s0]; simpl in *; [|reflexivity].
  injection H0 as ->. apply Hk.
Qed.

Lemma pure_try (body : M A) (handler : exn -> M A) :
  pure body -> (forall e, pure (handler e)) -> pure (try_except body handler).
Proof.
  intros Hm Hh st. unfold try_except. rewrite (Hm st).
  pose proof (Hm start) as H0.
  destruct (body start) as [[a|e] s0]; simpl in *; [reflexivity|].
  injection H0 as ->. apply Hh.
Qed.

Lemma bind_pure (m : M A) (k : A -> M B) (st : state) :
  pure m ->
  bind m k st =
  match fst (m start) with
  | Ok a => k a st
  | Raise e => (Raise e, st)
  end.
Proof. intros Hm. unfold bind. rewrite (Hm st). reflexivity. Qed.

Lemma bind_ok (m : M A) (k : A -> M B) (st st' : state) (b : B) :
  bind m k st = (Ok b, st') ->
  exists a st1, m st = (Ok a, st1) /\ k a st1 = (Ok b, st').
Proof.
  unfold bind. destruct (m st) as [[a|e] s1]; [eauto | discriminate].
Qed.

Lemma pure_state (m : M A) (st st1 : state) (o : outcome A) :
  pure m -> m st = (o, st1) -> st1 = st.
Proof. intros Hm H. rewrite (Hm st) in H. congruence. Qed.

(** Preservation of a reflexive and transitive relation on states. *)
Section Preservation.

Variable I : state -> state -> Prop.
Hypothesis I_refl : forall st, I st st.
Hypothesis I_trans : forall s1 s2 s3, I s1 s2 -> I s2 s3 -> I s1 s3.

Lemma preserves_pure (m : M A) : pure m -> preserves I m.
Proof. intros Hm st. rewrite (Hm st). apply I_refl. Qed.

Lemma preserves_bind (m : M A) (k : A -> M B) :
  preserves I m -> (forall a, preserves I (k a)) -> preserves I (bind m k).
Proof.
  intros Hm Hk st. unfold bind. specialize (Hm st).
  destruct (m st) as [[a|e] st1]; simpl in *; [|assumption].
  eapply I_trans; [exact Hm | apply Hk].
Qed.

Lemma preserves_try (body : M A) (handler : exn -> M A) :
  preserves I body -> (forall e, preserves I (handler e)) ->
  preserves I (try_except body handler).
Proof.
  intros Hm Hh st. unfold try_except. specialize (Hm st).
  destruct (body st) as [[a|e] st1]; simpl in *; [assumption|].
  eapply I_trans; [exact Hm | apply Hh].
Qed.

End Preservation.

Lemma quiet_preserves (I : state -> state -> Prop) (m : M A) :
  (forall st st', same_bridge_stdout st st' -> I st st') ->
  quiet m -> preserves I m.
Proof. intros HI Hm st. apply HI, Hm. Qed.

End Combinators.

Lemma same_bridge_stdout_refl (st : state) : same_bridge_stdout st st.
Proof. split; reflexivity. Qed.

Lemma same_bridge_stdout_trans (s1 s2 s3 : state) :
  same_bridge_stdout s1 s2 -> same_bridge_stdout s2 s3 -> same_bridge_stdout s1 s3.
Proof. intros [? ?] [? ?]. split; congruence. Qed.

Lemma same_stdout_refl (st : state) : same_stdout st st.
Proof. reflexivity. Qed.

Lemma same_stdout_trans (s1 s2 s3 : state) :
  same_stdout s1 s2 -> same_stdout s2 s3 -> same_stdout s1 s3.
Proof. unfold same_stdout. congruence. Qed.



Lemma same_bridge_stdout_silent (st st' : state) :
  same_bridge_stdout st st' -> same_stdout st st'.
Proof. intros [_ H]. exact H. Qed.

Lemma same_bridge_stdout_flag (st st' : state) :
  same_bridge_stdout st st' -> flag_kept st st'.
Proof. intros [H _] Hi. rewrite H. exact Hi. Qed.

Lemma quiet_pure {A : Type} (m : M A) : pure m -> quiet m.
Proof. apply preserves_pure, same_bridge_stdout_refl. Qed.

Lemma quiet_bind {A B : Type} (m : M A) (k : A -> M B) :
  quiet m -> (forall a, quiet (k a)) -> quiet (bind m k).
Proof. apply preserves_bind, same_bridge_stdout_trans. Qed.

Lemma quiet_try {A : Type} (body : M A) (handler : exn -> M A) :
  quiet body -> (forall e, quiet (handler e)) -> quiet (try_except body handler).
Proof. apply preserves_try, same_bridge_stdout_trans. Qed.

Lemma pure_hasattr (v : pyval) (name : string) : pure (hasattr v name).
Proof.
  unfold hasattr. destruct (py_getattr v name) as [|x|e];
    [| |destruct (is_attribute_error e)]; intros st; reflexivity.
Qed.

Lemma pure_getattr (v : pyval) (name : string) (d : pyval) : pure (getattr v name d).
Proof.
  unfold getattr. destruct (py_getattr v name) as [|x|e];
    [| |destruct (is_attribute_error e)]; intros st; reflexivity.
Qed.

Lemma pure_getfield (v : pyval) (name : string) : pure (getfield v name).
Proof. unfold getfield. destruct (py_getattr v name); intros st; reflexivity. Qed.

Lemma pure_dict_get (d : pyval) (key : string) (default : pyval) :
  pure (dict_get d key default).
Proof.
  unfold dict_get. destruct d; try (intros st; reflexivity).
  destruct (assoc key kv); intros st; reflexivity.
Qed.

#[export] Hint Resolve pure_ret pure_raise pure_lift pure_hasattr pure_getattr
  pure_getfield pure_dict_get : pure_db.

(** Purity of a chain of binds, conditionals included. *)
Ltac pure_chain :=
  repeat first
    [ progress auto with pure_db
    | apply pure_bind; [|intros ?]
    | apply pure_try; [|intros ?]
    | match goal with
      | |- pure (if ?b then _ else _) => destruct b
      end ].

Lemma pure_media_loop (items media_urls : list pyval) :
  pure (media_loop items media_urls).
Proof.
  revert media_urls. induction items as [|media rest IH]; intros media_urls; simpl.
  - apply pure_ret.
  - pure_chain.
Qed.

#[export] Hint Resolve pure_media_loop : pure_db.

Lemma pure_extract_media (tweet : pyval) : pure (extract_media tweet).
Proof. unfold extract_media. pure_chain. Qed.

#[export] Hint Resolve pure_extract_media : pure_db.

Lemma pure_map_trend (trend : pyval) : pure (map_trend trend).
Proof. unfold map_trend. pure_chain. Qed.

Lemma pure_trends_loop (trends results : list pyval) :
  pure (trends_loop trends results).
Proof.
  revert results. induction trends as [|trend rest IH]; intros results; simpl.
  - apply pure_ret.
  - pure_chain.
Qed.

#[export] Hint Resolve pure_map_trend pure_trends_loop : pure_db.

(** The calls to the world are quiet: they only extend the trace. *)
Section QuietCalls.

Variable env : Env.

Lemma quiet_get_bridge : quiet get_bridge.
Proof. intros st. split; reflexivity. Qed.

Lemma quiet_the_client (attribute : string) : quiet (the_client attribute).
Proof.
  intros st. unfold the_client. unfold_m. destruct (client (bridge st));
    split; reflexivity.
Qed.

Lemma quiet_datetime_now : quiet (datetime_now env).
Proof. intros st. split; reflexivity. Qed.

Lemma quiet_search_tweet (c : nat) (query count : pyval) :
  quiet (search_tweet env c query count).
Proof. intros st. split; reflexivity. Qed.

Lemma quiet_get_trends (c : nat) : quiet (get_trends env c).
Proof. intros st. split; reflexivity. Qed.

End QuietCalls.

#[export] Hint Resolve quiet_get_bridge quiet_the_client quiet_datetime_now
  quiet_search_tweet quiet_get_trends : quiet_db.

(** Quietness of a chain of binds; the pure links are closed by purity. *)
Ltac quiet_chain :=
  repeat first
    [ progress auto with quiet_db
    | solve [apply quiet_pure; pure_chain]
    | apply quiet_bind; [|intros ?]
    | apply quiet_try; [|intros ?]
    | match goal with
      | |- quiet (if ?b then _ else _) => destruct b
      end ].


(* ------------------------------------------------------------------ *)
(** ** Two runs side by side *)

Lemma sim_ret {A : Type} (R : A -> A -> Prop) (a a' : A) :
  R a a' -> sim R (ret a) (ret a').
Proof. intros H st st'. exact H. Qed.

Lemma sim_bind {A B : Type} (R : A -> A -> Prop) (S : B -> B -> Prop)
  (m m' : M A) (k k' : A -> M B) :
  sim R m m' -> (forall a a', R a a' -> sim S (k a) (k' a')) ->
  sim S (bind m k) (bind m' k').
Proof.
  intros Hm Hk st st'. unfold bind. specialize (Hm st st').
  destruct (m st) as [[a|e] s1], (m' st') as [[a'|e'] s1']; simpl in *;
    try contradiction; try exact I.
  apply (Hk a a' Hm).
Qed.

Lemma sim_weaken {A : Type} (R S : A -> A -> Prop) (m m' : M A) :
  (forall a a', R a a' -> S a a') -> sim R m m' -> sim S m m'.
Proof.
  intros HRS Hm st st'. specialize (Hm st st').
  destruct (fst (m st)), (fst (m' st')); auto.
Qed.

Lemma sim_is_ok {A : Type} (R : A -> A -> Prop) (m m' : M A) (st st' : state) :
  sim R m m' -> is_ok (m st) = is_ok (m' st').
Proof.
  intros Hm. specialize (Hm st st'). unfold is_ok.
  destruct (fst (m st)), (fst (m' st')); try reflexivity; contradiction.
Qed.

(** A pure computation is similar to itself, with equal results. *)
Lemma sim_pure {A : Type} (m : M A) : pure m -> sim eq m m.
Proof.
  intros Hm st st'. rewrite (Hm st), (Hm st'). simpl.
  destruct (fst (m start)); auto.
Qed.

Lemma sim_getattr (t t' : pyval) (name : string) (d : pyval) :
  py_getattr t name = py_getattr t' name ->
  sim eq (getattr t name d) (getattr t' name d).
Proof.
  intros H.
  assert (E : getattr t' name d = getattr t name d)
    by (unfold getattr; rewrite H; reflexivity).
  rewrite E. apply sim_pure, pure_getattr.
Qed.

Lemma sim_getattr_any (t t' : pyval) (name : string) (d d' : pyval) :
  raises (py_getattr t name) = raises (py_getattr t' name) ->
  sim any (getattr t name d) (getattr t' name d').
Proof.
  intros H st st'. unfold getattr, raises in *.
  destruct (py_getattr t name) as [|x|e], (py_getattr t' name) as [|x'|e'];
    try destruct (is_attribute_error e); try destruct (is_attribute_error e');
    simpl in *; try discriminate; exact I.
Qed.

Lemma sim_extract_media (t t' : pyval) :
  py_getattr t "media" = py_getattr t' "media" ->
  sim eq (extract_media t) (extract_media t').
Proof.
  intros H st st'. unfold extract_media, hasattr, getfield. rewrite <- H.
  destruct (py_getattr t "media") as [|m|e];
    [| |destruct (is_attribute_error e)]; unfold bind, ret, raise;
    cbn [fst snd]; auto.
  destruct (truthy m); cbn [fst snd]; auto.
  change (match fst ((items <- lift (py_iter m) ;; media_loop items []) st),
                fst ((items <- lift (py_iter m) ;; media_loop items []) st') with
          | Ok a, Ok a' => a = a'
          | Raise _, Raise _ => True
          | _, _ => False
          end).
  apply sim_pure. pure_chain.
Qed.

Ltac same_attr H := apply sim_getattr; apply H; discriminate.

(** One step of a chain whose head is pure: name its result, keep the state. *)
Ltac pure_step H :=
  let E := fresh "E" in
  let s := fresh "s" in
  apply bind_ok in H as (? & s & E & H);
  let P := fresh "P" in
  assert (P : s = _) by (eapply pure_state; [|exact E]; pure_chain);
  subst s.

Section Mapping.

Variable env : Env.

Lemma parse_timestamp_eq (created_at : pyval) (st : state) :
  parse_timestamp env created_at st =
  match spec_parsed_date env created_at with
  | Some iso => (Ok iso, st)
  | None => (Ok (now_isoformat env (calls st)), record EvNow st)
  end.
Proof.
  unfold parse_timestamp, spec_parsed_date, strptime. unfold_m.
  destruct created_at as [| b | z | f | s | l | kv | cls fields]; simpl;
    try reflexivity.
  - destruct b; reflexivity.
  - destruct (z =? 0)%Z; reflexivity.
  - destruct f as [| neg | q]; try reflexivity.
    destruct (Qeq_bool q 0); reflexivity.
  - destruct (s =? ""); simpl; [reflexivity|].
    destruct (strptime_isoformat env s); reflexivity.
  - destruct l; reflexivity.
  - destruct kv; reflexivity.
Qed.

Lemma sim_parse_timestamp (v v' : pyval) :
  sim any (parse_timestamp env v) (parse_timestamp env v').
Proof.
  intros st st'. rewrite !parse_timestamp_eq.
  destruct (spec_parsed_date env v), (spec_parsed_date env v'); exact I.
Qed.

Lemma map_tweet_sim (t t' : pyval) :
  same_but_created_at t t' -> sim any (map_tweet env t) (map_tweet env t').
Proof.
  intros [Hsame Hdate]. unfold map_tweet.
  eapply sim_bind; [apply sim_extract_media; apply Hsame; discriminate|].
  intros media_urls ? <-.
  do 4 (eapply sim_bind; [same_attr Hsame|]; intros ? ? <-).
  eapply sim_bind; [apply sim_getattr_any; exact Hdate|]. intros created_at created_at' _.
  eapply sim_bind; [apply sim_parse_timestamp|]. intros ts ts' _.
  eapply sim_bind; [same_attr Hsame|]. intros user ? <-.
  eapply sim_bind.
  { destruct (truthy user); [|apply sim_ret; reflexivity].
    apply sim_pure. auto with pure_db. }
  intros author_name ? <-.
  eapply sim_bind.
  { destruct (truthy user); [|apply sim_ret; reflexivity].
    apply sim_pure. auto with pure_db. }
  intros author_username ? <-.
  do 5 (eapply sim_bind; [same_attr Hsame|]; intros ? ? <-).
  apply sim_ret. exact I.
Qed.

Lemma map_tweet_timestamp (tweet item : pyval) (st st' : state) :
  map_tweet env tweet st = (Ok item, st') ->
  exists created_at,
    getattr tweet "created_at" VNone st = (Ok created_at, st) /\
    entry "timestamp" item = Some (VStr (spec_timestamp env created_at (calls st))).
Proof.
  intros H. unfold map_tweet in H.
  do 5 pure_step H.
  pure_step H. rename x4 into created_at.
  apply bind_ok in H as (ts & s & Ets & H).
  exists created_at. split; [assumption|].
  rewrite parse_timestamp_eq in Ets.
  assert (Hts : ts = spec_timestamp env created_at (calls st)).
  { unfold spec_timestamp. destruct (spec_parsed_date env created_at); congruence. }
  do 8 pure_step H.
  unfold ret in H. injection H as <- _. rewrite Hts. reflexivity.
Qed.

End Mapping.
(* ------------------------------------------------------------------ *)
(** ** The two batch loops *)

Lemma mapped_from_length (f : pyval -> M pyval) (raws items : list pyval) :
  mapped_from f raws items ->
  length items = length raws - dropped_count f raws.
Proof.
  unfold mapped_from, dropped_count. intros H.
  apply Forall2_length in H. rewrite <- H.
  pose proof (filter_length (maps f) raws). lia.
Qed.

Lemma mapped_from_le (f : pyval -> M pyval) (raws items : list pyval) :
  mapped_from f raws items -> length items <= length raws.
Proof. intros H. rewrite (mapped_from_length _ _ _ H). lia. Qed.

Section Batches.

Variable env : Env.

Lemma quiet_parse_timestamp (created_at : pyval) :
  quiet (parse_timestamp env created_at).
Proof.
  intros st. rewrite parse_timestamp_eq.
  destruct (spec_parsed_date env created_at); split; reflexivity.
Qed.

Hint Resolve quiet_parse_timestamp : quiet_db.

Lemma quiet_map_tweet (tweet : pyval) : quiet (map_tweet env tweet).
Proof. unfold map_tweet. quiet_chain. Qed.

Lemma same_but_created_at_refl (t : pyval) : same_but_created_at t t.
Proof. split; reflexivity. Qed.

(** Whether a tweet maps does not depend on the state. *)
Lemma map_tweet_maps (tweet : pyval) (st : state) :
  is_ok (map_tweet env tweet st) = maps (map_tweet env) tweet.
Proof.
  unfold maps. eapply sim_is_ok. apply map_tweet_sim, same_but_created_at_refl.
Qed.

Lemma tweets_loop_run (tweets acc : list pyval) (st : state) :
  exists results st',
    tweets_loop env tweets acc st = (Ok (acc ++ results), st') /\
    same_bridge_stdout st st' /\
    mapped_from (map_tweet env) tweets results.
Proof.
  revert acc st. induction tweets as [|tweet rest IH]; intros acc st.
  - exists [], st. simpl. rewrite app_nil_r.
    repeat split; constructor.
  - simpl. unfold bind at 1. unfold try_except, bind at 1.
    pose proof (map_tweet_maps tweet st) as Hmaps.
    pose proof (quiet_map_tweet tweet st) as Hq.
    unfold mapped_from. simpl filter.
    destruct (map_tweet env tweet st) as [[item|e] s1] eqn:E;
      unfold is_ok in Hmaps; simpl in Hmaps, Hq; rewrite <- Hmaps.
    + destruct (IH (acc ++ [item]) s1) as (results & st' & Hrun & Hsame & Hmap).
      exists (item :: results), st'. unfold ret at 1. rewrite Hrun.
      rewrite <- app_assoc. repeat split.
      * destruct Hq, Hsame. congruence.
      * destruct Hq, Hsame. congruence.
      * constructor; [|exact Hmap]. exists st. rewrite E. reflexivity.
    + destruct (IH acc s1) as (results & st' & Hrun & Hsame & Hmap).
      exists results, st'. unfold ret at 1. rewrite Hrun. repeat split.
      * destruct Hq, Hsame. congruence.
      * destruct Hq, Hsame. congruence.
      * exact Hmap.
Qed.

Lemma map_trend_maps (trend : pyval) (st : state) :
  is_ok (map_trend trend st) = maps map_trend trend.
Proof.
  unfold maps, is_ok. rewrite (pure_map_trend trend st). reflexivity.
Qed.

Lemma trends_loop_run (trends acc : list pyval) (st : state) :
  exists results,
    trends_loop trends acc st = (Ok (acc ++ results), st) /\
    mapped_from map_trend trends results.
Proof.
  revert acc. induction trends as [|trend rest IH]; intros acc.
  - exists []. simpl. rewrite app_nil_r. split; constructor.
  - simpl. unfold bind at 1. unfold try_except, bind at 1.
    pose proof (map_trend_maps trend st) as Hmaps.
    unfold mapped_from. simpl filter.
    rewrite (pure_map_trend trend st) in *.
    destruct (fst (map_trend trend start)) as [item|e] eqn:E;
      unfold is_ok in Hmaps; simpl in Hmaps; rewrite <- Hmaps.
    + destruct (IH (acc ++ [item])) as (results & Hrun & Hmap).
      exists (item :: results). unfold ret at 1. rewrite Hrun.
      rewrite <- app_assoc. split; [reflexivity|].
      constructor; [|exact Hmap]. exists start. exact E.
    + destruct (IH acc) as (results & Hrun & Hmap).
      exists results. unfold ret at 1. rewrite Hrun. split; [reflexivity|exact Hmap].
Qed.

(** [search_tweets] on a bridge that passes the guard. *)
Lemma search_tweets_run (query count : pyval) (st : state) (c : nat) :
  initialized (bridge st) = true -> client (bridge st) = Some c ->
  match Client_search_tweet env (calls st) c query count with
  | Ok tweets =>
      exists results st',
        search_tweets env query count st = (Ok (search_success results query), st') /\
        same_bridge_stdout st st' /\
        mapped_from (map_tweet env) tweets results
  | Raise ex =>
      search_tweets env query count st =
      (Ok (call_failed env "Search failed: " ex), record (EvSearchTweet c query count) st)
  end.
Proof.
  intros Hi Hc. unfold search_tweets, no_client, the_client.
  unfold try_except, bind, get_bridge, search_tweet, ret, raise. cbv beta.
  rewrite Hi, Hc. cbn [negb orb]. cbv beta iota. rewrite Hc. cbv beta iota.
  destruct (Client_search_tweet env (calls st) c query count) as [tweets|ex].
  - destruct (tweets_loop_run tweets [] (record (EvSearchTweet c query count) st))
      as (results & st' & Hrun & Hsame & Hmap).
    exists results, st'. rewrite Hrun. simpl.
    repeat split; try exact Hmap.
    + destruct Hsame as [Hb _]. exact Hb.
    + destruct Hsame as [_ Ho]. exact Ho.
  - unfold call_failed. destruct (is_twikit ex); reflexivity.
Qed.

(** [get_trending] on a bridge that passes the guard. *)
Lemma get_trending_run (count : pyval) (st : state) (c : nat) :
  initialized (bridge st) = true -> client (bridge st) = Some c ->
  let st1 := record (EvGetTrends c) st in
  match Client_get_trends env (calls st) c with
  | Ok trends =>
      match py_min count (Z.of_nat (length trends)) with
      | Ok bound =>
          match py_slice_to trends bound with
          | Ok kept =>
              exists results,
                get_trending env count st = (Ok (trending_success results), st1) /\
                mapped_from map_trend kept results
          | Raise ex =>
              get_trending env count st =
              (Ok (call_failed env "Trending fetch failed: " ex), st1)
          end
      | Raise ex =>
          get_trending env count st =
          (Ok (call_failed env "Trending fetch failed: " ex), st1)
      end
  | Raise ex =>
      get_trending env count st =
      (Ok (call_failed env "Trending fetch failed: " ex), st1)
  end.
Proof.
  intros Hi Hc st1. unfold get_trending, no_client, the_client.
  unfold try_except, bind, get_bridge, get_trends, ret, raise, lift. cbv beta.
  rewrite Hi, Hc. cbn [negb orb]. cbv beta iota. rewrite Hc. cbv beta iota.
  fold st1.
  destruct (Client_get_trends env (calls st) c) as [trends|ex].
  - destruct (py_min count (Z.of_nat (length trends))) as [bound|ex].
    + destruct (py_slice_to trends bound) as [kept|ex].
      * destruct (trends_loop_run kept [] st1) as (results & Hrun & Hmap).
        exists results. rewrite Hrun. simpl. split; [reflexivity|exact Hmap].
      * unfold call_failed. destruct (is_twikit ex); reflexivity.
    + unfold call_failed. destruct (is_twikit ex); reflexivity.
  - unfold call_failed. destruct (is_twikit ex); reflexivity.
Qed.

Lemma quiet_tweets_loop (tweets acc : list pyval) : quiet (tweets_loop env tweets acc).
Proof.
  intros st. destruct (tweets_loop_run tweets acc st) as (r & st' & H & Hs & _).
  rewrite H. exact Hs.
Qed.

Hint Resolve quiet_tweets_loop : quiet_db.

Lemma quiet_search_tweets (query count : pyval) : quiet (search_tweets env query count).
Proof. unfold search_tweets. quiet_chain. Qed.

Lemma quiet_get_trending (count : pyval) : quiet (get_trending env count).
Proof. unfold get_trending. quiet_chain. Qed.

End Batches.

#[export] Hint Resolve quiet_search_tweets quiet_get_trending : quiet_db.

(* ------------------------------------------------------------------ *)
(** ** The dispatcher *)

Lemma dict_get_dict (kv : list (string * pyval)) (key : string) (d : pyval) :
  dict_get (VDict kv) key d =
  ret (match assoc key kv with Some v => v | None => d end).
Proof. unfold dict_get. destruct (assoc key kv); reflexivity. Qed.

Lemma dict_get_no_get (v : pyval) (key : string) (d : pyval) :
  is_dict v = false -> dict_get v key d = raise (no_get v).
Proof. destruct v; try reflexivity. discriminate. Qed.

Lemma bind_ret_l {A B : Type} (a : A) (k : A -> M B) : bind (ret a) k = k a.
Proof. reflexivity. Qed.

Lemma bind_raise_l {A B : Type} (e : exn) (k : A -> M B) :
  bind (raise e) k = raise e.
Proof. reflexivity. Qed.

Lemma total_bind {A B : Type} (m : M A) (k : A -> M B) :
  total m -> (forall a, total (k a)) -> total (bind m k).
Proof.
  intros Hm Hk st. unfold bind. destruct (Hm st) as (a & st1 & ->). apply Hk.
Qed.

Lemma total_try {A : Type} (body : M A) (handler : exn -> M A) :
  (forall e, total (handler e)) -> total (try_except body handler).
Proof.
  intros Hh st. unfold try_except.
  destruct (body st) as [[a|e] st1]; [eauto | apply Hh].
Qed.

Lemma total_ret {A : Type} (a : A) : total (ret a).
Proof. intros st. unfold ret. eauto. Qed.

Section Dispatch.

Variable env : Env.

Lemma total_initialize (u e p : pyval) : total (initialize env u e p).
Proof. intros st. apply initialize_returns. Qed.

Lemma total_search_tweets (query count : pyval) :
  total (search_tweets env query count).
Proof.
  unfold search_tweets. apply total_bind; [intros st; unfold get_bridge; eauto|].
  intros b. destruct (negb (initialized b) || no_client b); [apply total_ret|].
  apply total_try. intros ex. destruct (is_twikit ex); apply total_ret.
Qed.

Lemma total_get_trending (count : pyval) : total (get_trending env count).
Proof.
  unfold get_trending. apply total_bind; [intros st; unfold get_bridge; eauto|].
  intros b. destruct (negb (initialized b) || no_client b); [apply total_ret|].
  apply total_try. intros ex. destruct (is_twikit ex); apply total_ret.
Qed.

Lemma preserves_flag_initialize (u e p : pyval) :
  preserves flag_kept (initialize env u e p).
Proof.
  intros st Hi. rewrite initialize_flag.
  destruct (initialize_failure env u e p st); [exact Hi | reflexivity].
Qed.

Lemma preserves_stdout_initialize (u e p : pyval) :
  preserves same_stdout (initialize env u e p).
Proof. intros st. apply initialize_stdout. Qed.


Lemma preserves_stdout_quiet {A : Type} (m : M A) : quiet m -> preserves same_stdout m.
Proof. apply quiet_preserves, same_bridge_stdout_silent. Qed.

(** [handle_request] on something that is no object: the first [get]
    raises, before the [try]. *)
Lemma handle_request_no_get (request : pyval) (st : state) :
  is_dict request = false ->
  handle_request env request st = (Raise (no_get request), st).
Proof.
  intros H. unfold handle_request. rewrite dict_get_no_get by exact H. reflexivity.
Qed.

(** What the body of the [try] does. *)
Lemma dispatch_run (method params request_id : pyval) (st : state) :
  if is_dict params then
    exists r st',
      dispatch env method params request_id st = (Ok r, st') /\
      entry "id" r = Some request_id /\
      same_stdout st st' /\ flag_kept st st'
  else if known_method method then
    dispatch env method params request_id st = (Raise (no_get params), st)
  else
    dispatch env method params request_id st =
    (Ok (method_not_found env method request_id), st).
Proof.
  unfold dispatch, known_method.
  destruct (is_dict params) eqn:Hd.
  - destruct params; try discriminate. rewrite !dict_get_dict, !bind_ret_l.
    destruct (py_eq_str method "initialize");
      [|destruct (py_eq_str method "search");
        [|destruct (py_eq_str method "trending")]].
    + match goal with
      | |- context [initialize env ?u ?e ?p] =>
          destruct (total_initialize u e p st) as (r & st' & Hr);
          pose proof (preserves_flag_initialize u e p st) as Hf;
          pose proof (preserves_stdout_initialize u e p st) as Ho
      end.
      exists (result_envelope r request_id), st'.
      unfold bind, ret. rewrite Hr in *. repeat split; assumption.
    + match goal with
      | |- context [search_tweets env ?q ?c] =>
          destruct (total_search_tweets q c st) as (r & st' & Hr);
          pose proof (quiet_search_tweets env q c st) as Hq
      end.
      exists (result_envelope r request_id), st'.
      unfold bind, ret. rewrite Hr in *. repeat split.
      * apply same_bridge_stdout_silent, Hq.
      * apply same_bridge_stdout_flag, Hq.
    + match goal with
      | |- context [get_trending env ?c] =>
          destruct (total_get_trending c st) as (r & st' & Hr);
          pose proof (quiet_get_trending env c st) as Hq
      end.
      exists (result_envelope r request_id), st'.
      unfold bind, ret. rewrite Hr in *. repeat split.
      * apply same_bridge_stdout_silent, Hq.
      * apply same_bridge_stdout_flag, Hq.
    + exists (method_not_found env method request_id), st.
      repeat split. intros H. exact H.
  - destruct (py_eq_str method "initialize");
      [|destruct (py_eq_str method "search");
        [|destruct (py_eq_str method "trending")]];
      cbn [orb]; try rewrite !dict_get_no_get by exact Hd;
      try rewrite !bind_raise_l; reflexivity.
Qed.

(** [handle_request] on an object: it returns, with the [id] of the
    request, and a failure of the body becomes the internal error. *)
Lemma handle_request_dict (kv : list (string * pyval)) (st : state) :
  let method := match assoc "method" kv with Some v => v | None => VNone end in
  let params := match assoc "params" kv with Some v => v | None => VDict [] end in
  let request_id := request_id_of kv in
  exists r st',
    handle_request env (VDict kv) st = (Ok r, st') /\
    entry "id" r = Some request_id /\
    same_stdout st st' /\ flag_kept st st' /\
    (forall e s, dispatch env method params request_id st = (Raise e, s) ->
                 r = internal_error env e request_id /\ st' = s).
Proof.
  intros method params request_id. unfold handle_request.
  rewrite !dict_get_dict, !bind_ret_l. fold method params. fold (request_id_of kv).
  fold request_id.
  change (exists r st',
    try_except (dispatch env method params request_id)
      (fun e => ret (internal_error env e request_id)) st = (Ok r, st') /\
    entry "id" r = Some request_id /\
    same_stdout st st' /\ flag_kept st st' /\
    (forall e s, dispatch env method params request_id st = (Raise e, s) ->
                 r = internal_error env e request_id /\ st' = s)).
  unfold try_except.
  pose proof (dispatch_run method params request_id st) as H.
  destruct (is_dict params).
  - destruct H as (r & st' & Hr & Hid & Ho & Hf). rewrite Hr.
    exists r, st'. repeat split; try assumption; discriminate.
  - destruct (known_method method); rewrite H.
    + exists (internal_error env (no_get params) request_id), st. unfold ret.
      repeat split; try reflexivity.
      * intros Hi. exact Hi.
      * injection H0 as <- _. reflexivity.
      * injection H0 as _ <-. reflexivity.
    + exists (method_not_found env method request_id), st.
      repeat split; try reflexivity; try discriminate. intros Hi. exact Hi.
Qed.

End Dispatch.

(* ------------------------------------------------------------------ *)
(** ** The protocol loop *)

Lemma lstrip_nonempty (s : string) : lstrip s <> "" -> s <> "".
Proof. intros H ->. apply H. reflexivity. Qed.

Lemma strip_nonempty (line : string) : strip line <> "" -> line <> "".
Proof. intros H ->. apply H. reflexivity. Qed.

Lemma eqb_empty_false (s : string) : s <> "" -> (s =? "") = false.
Proof. intros H. apply String.eqb_neq. exact H. Qed.

Section Loop.

Variable env : Env.

Lemma json_dumps_parse_error (msg : string) :
  json_dumps (parse_error msg) = Ok (parse_error msg).
Proof. reflexivity. Qed.

Lemma json_dumps_server_error (e : exn) :
  json_dumps (server_error env e) = Ok (server_error env e).
Proof. reflexivity. Qed.

Lemma print_json_server_error (e : exn) (st : state) :
  print_json (server_error env e) st = (Ok tt, print (server_error env e) st).
Proof. unfold print_json. rewrite json_dumps_server_error. reflexivity. Qed.

Lemma print_json_parse_error (msg : string) (st : state) :
  print_json (parse_error msg) st = (Ok tt, print (parse_error msg) st).
Proof. unfold print_json. rewrite json_dumps_parse_error. reflexivity. Qed.

Lemma loop_body_blank (line : string) (st : state) :
  strip line = "" -> loop_body env line st = (Ok tt, st).
Proof. intros H. unfold loop_body. rewrite H. reflexivity. Qed.

Lemma loop_body_parse_error (line msg : string) (st : state) :
  strip line <> "" -> json_loads env (strip line) = JSONDecodeError msg ->
  loop_body env line st = (Ok tt, print (parse_error msg) st).
Proof.
  intros Hb Hl. unfold loop_body. rewrite (eqb_empty_false _ Hb), Hl.
  unfold try_except. rewrite print_json_parse_error. reflexivity.
Qed.

Lemma loop_body_loads_raises (line : string) (e : exn) (st : state) :
  strip line <> "" -> json_loads env (strip line) = LoadsRaises e ->
  loop_body env line st = (Ok tt, print (server_error env e) st).
Proof.
  intros Hb Hl. unfold loop_body. rewrite (eqb_empty_false _ Hb), Hl.
  unfold try_except, raise. apply print_json_server_error.
Qed.

Lemma loop_body_no_get (line : string) (request : pyval) (st : state) :
  strip line <> "" -> json_loads env (strip line) = Decoded request ->
  is_dict request = false ->
  loop_body env line st = (Ok tt, print (server_error env (no_get request)) st).
Proof.
  intros Hb Hl Hd. unfold loop_body. rewrite (eqb_empty_false _ Hb), Hl.
  unfold try_except, bind. rewrite (handle_request_no_get env request st Hd).
  apply print_json_server_error.
Qed.

Lemma loop_body_response (line : string) (request r : pyval) (st st' : state) :
  strip line <> "" -> json_loads env (strip line) = Decoded request ->
  handle_request env request st = (Ok r, st') ->
  loop_body env line st = (Ok tt, print (written env r) st').
Proof.
  intros Hb Hl Hr. unfold loop_body. rewrite (eqb_empty_false _ Hb), Hl.
  unfold try_except, bind. rewrite Hr. unfold written, print_json, bind, lift.
  destruct (json_dumps r) as [doc|e]; [reflexivity|].
  apply print_json_server_error.
Qed.

(** A turn of the loop never raises. *)
Lemma loop_body_total (line : string) : total (loop_body env line).
Proof.
  intros st. destruct (string_dec (strip line) "") as [Hb|Hb].
  - rewrite (loop_body_blank line st Hb). eauto.
  - destruct (json_loads env (strip line)) as [request|msg|e] eqn:Hl.
    + destruct (is_dict request) eqn:Hd.
      * destruct request; try discriminate.
        destruct (handle_request_dict env kv st) as (r & st' & Hr & _).
        rewrite (loop_body_response line _ r st st' Hb Hl Hr). eauto.
      * rewrite (loop_body_no_get line request st Hb Hl Hd). eauto.
    + rewrite (loop_body_parse_error line msg st Hb Hl). eauto.
    + rewrite (loop_body_loads_raises line e st Hb Hl). eauto.
Qed.



(** The loop goes on after a turn, whatever the line was. *)
Lemma main_loop_cons (line : string) (rest : list string) (st : state) :
  line <> "" ->
  main_loop env (line :: rest) st = main_loop env rest (snd (loop_body env line st)).
Proof.
  intros Hl. simpl. rewrite (eqb_empty_false _ Hl). unfold bind.
  destruct (loop_body_total line st) as ([] & st' & ->). reflexivity.
Qed.

Lemma main_loop_total (stdin : list string) : total (main_loop env stdin).
Proof.
  induction stdin as [|line rest IH]; intros st.
  - simpl. unfold ret. eauto.
  - destruct (string_dec line "") as [->|Hl].
    + simpl. unfold ret. eauto.
    + rewrite (main_loop_cons line rest st Hl). apply IH.
Qed.


End Loop.

(* ------------------------------------------------------------------ *)
(** ** The dispatcher boundary and the loop *)

(** C1 (as stated, refuted).  The line [[1]] is valid JSON and no
    object: the response that the loop writes for it is the loop's own
    "Server error", which is not of the form of the dispatcher's
    "Internal error" response, whatever the id. *)
Lemma C1_non_object_is_server_error :
  exists response st',
    json_loads Stub.env (strip "[1]") = Decoded (VList [VInt 1]) /\
    loop_body Stub.env "[1]" start = (Ok tt, st') /\
    stdout st' = [response] /\
    entry "error" response =
      Some (VDict [("code", VInt (-32603));
                   ("message", VStr "Server error: 'list' object has no attribute 'get'");
                   ("data", VStr (format_exc Stub.env (no_get (VList [VInt 1]))))]) /\
    forall request_id, ~ internal_error_contract request_id response.
Proof.
  eexists. eexists. split; [reflexivity|]. split; [reflexivity|].
  split; [reflexivity|]. split; [reflexivity|].
  intros request_id H. destruct H as (detail & data & H). discriminate H.
Qed.

(** C1 (amended).  A decoded line always gets exactly one response:
    the turn of the loop appends one line to the output and nothing
    else, and the loop goes on with the next line.  When the decoded
    value is an object,
    [handle_request] returns; if the body of its [try] raises [e] (which
    only happens for a known method), the response is the error -32603
    "Internal error: <str(e)>" with the traceback as data and the id of
    the request.  When the decoded value is no object, [handle_request]
    raises before its [try] and the loop writes the error -32603
    "Server error: <detail>" with id null, the state being unchanged. *)
Theorem C1_failure_contained
  (env : Env) (line : string) (rest : list string) (request : pyval) (st : state) :
  strip line <> "" ->
  json_loads env (strip line) = Decoded request ->
  exists response st',
    loop_body env line st = (Ok tt, print response st') /\
    stdout (print response st') = stdout st ++ [response] /\
    main_loop env (line :: rest) st = main_loop env rest (print response st') /\
    match request with
    | VDict kv =>
        let method := match assoc "method" kv with Some v => v | None => VNone end in
        let params := match assoc "params" kv with Some v => v | None => VDict [] end in
        exists r,
          handle_request env request st = (Ok r, st') /\
          response = written env r /\
          forall e s,
            dispatch env method params (request_id_of kv) st = (Raise e, s) ->
            known_method method = true /\
            r = internal_error env e (request_id_of kv) /\
            internal_error_contract (request_id_of kv) r
    | _ =>
        st' = st /\
        handle_request env request st = (Raise (no_get request), st) /\
        response = server_error env (no_get request)
    end.
Proof.
  intros Hb Hl.
  assert (Hcont : forall response st',
             loop_body env line st = (Ok tt, print response st') ->
             main_loop env (line :: rest) st = main_loop env rest (print response st')).
  { intros response st' H.
    rewrite (main_loop_cons env line rest st (strip_nonempty line Hb)), H.
    reflexivity. }
  destruct (is_dict request) eqn:Hd.
  - destruct request; try discriminate.
    destruct (handle_request_dict env kv st) as (r & st' & Hr & _ & Ho & _ & Hraise).
    pose proof (loop_body_response env line _ r st st' Hb Hl Hr) as Hbody.
    exists (written env r), st'. split; [exact Hbody|].
    split; [simpl; rewrite Ho; reflexivity|]. split; [auto|].
    exists r. split; [exact Hr|]. split; [reflexivity|].
    intros e s He. destruct (Hraise e s He) as [-> _].
    split; [|split; [reflexivity|]].
    + revert He.
      generalize (match assoc "method" kv with Some v => v | None => VNone end).
      generalize (match assoc "params" kv with Some v => v | None => VDict [] end).
      intros params method He.
      pose proof (dispatch_run env method params (request_id_of kv) st) as H.
      rewrite He in H.
      destruct (is_dict params); [destruct H as (? & ? & H & _); discriminate H|].
      destruct (known_method method); [reflexivity | discriminate H].
    + exists (exn_str e), (format_exc env e). reflexivity.
  - pose proof (loop_body_no_get env line request st Hb Hl Hd) as Hbody.
    exists (server_error env (no_get request)), st.
    split; [exact Hbody|]. split; [reflexivity|]. split; [auto|].
    pose proof (handle_request_no_get env request st Hd).
    destruct request; try discriminate; auto.
Qed.

Lemma C1_failure_contained_witness :
  exists response st',
    loop_body Stub.env (Stub.encode Stub.req_bad_params) start
    = (Ok tt, print response st') /\
    stdout (print response st') = stdout start ++ [response] /\
    dispatch Stub.env (VStr "search") (VList [VInt 1]) (VInt 7) start
    = (Raise (no_get (VList [VInt 1])), start) /\
    internal_error_contract (VInt 7) response.
Proof.
  destruct (C1_failure_contained Stub.env (Stub.encode Stub.req_bad_params) []
              Stub.req_bad_params start)
    as (response & st' & Hbody & Hout & _ & r & Hr & Hw & Hraise).
  - intros H. vm_compute in H. discriminate H.
  - vm_compute. reflexivity.
  - exists response, st'. split; [exact Hbody|]. split; [exact Hout|].
    split; [reflexivity|].
    destruct (Hraise (no_get (VList [VInt 1])) start eq_refl) as (_ & -> & Hc).
    rewrite Hw. exact Hc.
Defined.

(** C2 (as stated, refuted).  The line [[1]] decodes; its response
    carries id null and is no parse-error response. *)
Lemma C2_null_id_without_parse_error :
  exists response st',
    json_loads Stub.env (strip "[1]") = Decoded (VList [VInt 1]) /\
    loop_body Stub.env "[1]" start = (Ok tt, st') /\
    stdout st' = stdout start ++ [response] /\
    entry "id" response = Some VNone /\
    is_parse_error response = false.
Proof. repeat eexists; reflexivity. Qed.

(** C2 (amended).  For every line that decodes, exactly one line is
    written.  When the decoded value is an object, the dispatcher's
    response carries the id of the request (null when the request has
    none), and that response is the line written, unless [json.dumps]
    rejects it: then the line is the loop's "Server error" with id null.
    When the decoded value is no object, the line is the loop's
    "Server error" with id null.  No such line is a parse-error
    response. *)
Theorem C2_one_response_with_id
  (env : Env) (line : string) (request : pyval) (st : state) :
  strip line <> "" ->
  json_loads env (strip line) = Decoded request ->
  exists response st',
    loop_body env line st = (Ok tt, st') /\
    stdout st' = stdout st ++ [response] /\
    is_parse_error response = false /\
    match request with
    | VDict kv =>
        exists r,
          fst (handle_request env request st) = Ok r /\
          entry "id" r = Some (request_id_of kv) /\
          (json_dumps r = Ok r -> response = r) /\
          (forall e, json_dumps r = Raise e -> response = server_error env e)
    | _ => response = server_error env (no_get request)
    end.
Proof.
  intros Hb Hl. destruct (is_dict request) eqn:Hd.
  - destruct request; try discriminate.
    destruct (handle_request_dict env kv st) as (r & st' & Hr & Hid & Ho & _ & _).
    exists (written env r), (print (written env r) st').
    split; [apply (loop_body_response env line _ r st st' Hb Hl Hr)|].
    split; [simpl; rewrite Ho; reflexivity|].
    split.
    + unfold written, json_dumps. destruct (unserializable r); [reflexivity|].
      unfold handle_request in Hr. rewrite !dict_get_dict, !bind_ret_l in Hr.
      fold (request_id_of kv) in Hr. unfold try_except in Hr.
      revert Hr.
      generalize (match assoc "method" kv with Some v => v | None => VNone end).
      generalize (match assoc "params" kv with Some v => v | None => VDict [] end).
      intros params method Hr.
      pose proof (dispatch_run env method params (request_id_of kv) st) as H.
      destruct (is_dict params).
      * destruct H as (r0 & s0 & H0 & _). rewrite H0 in Hr. injection Hr as <- _.
        unfold dispatch in H0.
        destruct (py_eq_str method "initialize");
          [|destruct (py_eq_str method "search");
            [|destruct (py_eq_str method "trending")]].
        -- repeat (apply bind_ok in H0 as (? & ? & _ & H0)).
           injection H0 as <- _. reflexivity.
        -- repeat (apply bind_ok in H0 as (? & ? & _ & H0)).
           injection H0 as <- _. reflexivity.
        -- repeat (apply bind_ok in H0 as (? & ? & _ & H0)).
           injection H0 as <- _. reflexivity.
        -- injection H0 as <- _. reflexivity.
      * destruct (known_method method); rewrite H in Hr; injection Hr as <- _;
          reflexivity.
    + exists r. rewrite Hr. split; [reflexivity|]. split; [exact Hid|].
      unfold written. split.
      * intros ->. reflexivity.
      * intros e ->. reflexivity.
  - exists (server_error env (no_get request)),
           (print (server_error env (no_get request)) st).
    split; [apply (loop_body_no_get env line request st Hb Hl Hd)|].
    split; [reflexivity|]. split; [reflexivity|].
    destruct request; try discriminate; reflexivity.
Qed.

Lemma C2_one_response_with_id_witness :
  exists response st',
    loop_body Stub.env (Stub.encode Stub.req_delete) start = (Ok tt, st') /\
    stdout st' = stdout start ++ [response] /\
    entry "id" response = Some (VInt 9).
Proof.
  destruct (C2_one_response_with_id Stub.env (Stub.encode Stub.req_delete)
              Stub.req_delete start)
    as (response & st' & Hbody & Hout & _ & r & Hr & Hid & Hok & _).
  - intros H. vm_compute in H. discriminate H.
  - vm_compute. reflexivity.
  - exists response, st'. split; [exact Hbody|]. split; [exact Hout|].
    vm_compute in Hr. injection Hr as <-. rewrite (Hok eq_refl). reflexivity.
Defined.

(** C5 (as stated, refuted).  A line of 4301 digits is not blank and
    fails JSON decoding: [json.loads] raises the [ValueError] of the
    limit on integer digits, which [except json.JSONDecodeError] does
    not catch.  The one response written is the loop's "Server error"
    with code -32603, not the parse error -32700. *)
Lemma C5_digit_limit_is_server_error :
  let line := Stub.nines 4301 in
  exists response st',
    strip line <> "" /\
    json_loads Stub.env (strip line) = LoadsRaises (Stub.digit_limit_error line) /\
    loop_body Stub.env line start = (Ok tt, st') /\
    stdout st' = [response] /\
    entry "error" response =
      Some (VDict [("code", VInt (-32603));
                   ("message",
                    VStr "Server error: Exceeds the limit (4300 digits) for integer string conversion: value has 4301 digits; use sys.set_int_max_str_digits() to increase the limit");
                   ("data", VStr (format_exc Stub.env (Stub.digit_limit_error line)))]) /\
    is_parse_error response = false.
Proof.
  cbv zeta. eexists. eexists.
  split; [intros H; vm_compute in H; discriminate H|].
  split; [vm_compute; reflexivity|].
  split; [vm_compute; reflexivity|].
  split; [reflexivity|]. split; vm_compute; reflexivity.
Qed.

(** C5 (amended).  A non-blank line that [json.loads] does not decode
    makes the loop write exactly one line with id null and go on with
    the lines that follow, nothing else in the state changing.  When
    [json.loads] raises [JSONDecodeError], the line is the error -32700
    "Parse error: <detail>"; when it raises any other exception, the
    line is the loop's error -32603 "Server error: <detail>" with the
    traceback as data. *)
Theorem C5_undecodable_line_answered
  (env : Env) (line : string) (rest : list string) (st : state) :
  strip line <> "" ->
  let answered (response : pyval) :=
    loop_body env line st =
      (Ok tt, {| bridge := bridge st; calls := calls st;
                 stdout := stdout st ++ [response] |}) /\
    main_loop env (line :: rest) st =
      main_loop env rest {| bridge := bridge st; calls := calls st;
                            stdout := stdout st ++ [response] |} in
  (forall msg,
      json_loads env (strip line) = JSONDecodeError msg ->
      answered (VDict [("jsonrpc", VStr "2.0");
                       ("error", VDict [("code", VInt (-32700));
                                        ("message", VStr ("Parse error: " ++ msg))]);
                       ("id", VNone)])) /\
  (forall e,
      json_loads env (strip line) = LoadsRaises e ->
      answered (VDict [("jsonrpc", VStr "2.0");
                       ("error", VDict [("code", VInt (-32603));
                                        ("message", VStr ("Server error: " ++ exn_str e));
                                        ("data", VStr (format_exc env e))]);
                       ("id", VNone)])).
Proof.
  intros Hb answered. split.
  - intros msg Hl.
    pose proof (loop_body_parse_error env line msg st Hb Hl) as Hbody.
    split; [exact Hbody|].
    rewrite (main_loop_cons env line rest st (strip_nonempty line Hb)), Hbody.
    reflexivity.
  - intros e Hl.
    pose proof (loop_body_loads_raises env line e st Hb Hl) as Hbody.
    split; [exact Hbody|].
    rewrite (main_loop_cons env line rest st (strip_nonempty line Hb)), Hbody.
    reflexivity.
Qed.

Lemma C5_undecodable_line_answered_witness :
  stdout (snd (main_loop Stub.env
                 ["garbage"; Stub.encode (Stub.req_trending 1 3)] Stub.logged_in))
  = [parse_error "Expecting value: line 1 column 1 (char 0)";
     result_envelope
       (trending_success
          [VDict [("name", VStr "#one"); ("url", VStr "");
                  ("tweet_volume", VInt 1200); ("platform", VStr "twitter")]])
       (VInt 3)].
Proof.
  destruct (C5_undecodable_line_answered Stub.env "garbage"
              [Stub.encode (Stub.req_trending 1 3)] Stub.logged_in) as [Hparse _].
  - intros H. vm_compute in H. discriminate H.
  - destruct (Hparse "Expecting value: line 1 column 1 (char 0)") as [_ ->].
    + vm_compute. reflexivity.
    + vm_compute. reflexivity.
Defined.

(* ------------------------------------------------------------------ *)
(** ** The session *)

(** C3 (as stated, refuted).  On the fresh bridge, [initialize] with a
    password that the client rejects with its own exception answers
    AUTH_ERROR, and the identity of the session has changed: it is the
    username of the failed call. *)
Lemma C3_identity_overwritten :
  let run := initialize Stub.env (VStr "alice") (VStr "alice@example.org")
               (VStr "wrong") start in
  fst run = Ok (VDict [("success", VBool false);
                       ("error", VStr "Twikit authentication failed: Could not authenticate you");
                       ("type", VStr "AUTH_ERROR")]) /\
  session_state (bridge start) = (false, VNone) /\
  session_state (bridge (snd run)) = (false, VStr "alice") /\
  session_state (bridge (snd run)) <> session_state (bridge start).
Proof. repeat split. discriminate. Qed.

(** C3 (amended).  When the client answers a call of [initialize] with
    an exception of its own class, the payload is success false, error
    "Twikit authentication failed: <detail>", type AUTH_ERROR; the flag
    [initialized] is as before the call, and the stored username, email
    and password are those of the call. *)
Theorem C3_auth_error_keeps_flag
  (env : Env) (u e p : pyval) (st : state) (ex : exn) :
  initialize_failure env u e p st = Some ex ->
  is_twikit ex = true ->
  exists st',
    initialize env u e p st =
      (Ok (VDict [("success", VBool false);
                  ("error", VStr ("Twikit authentication failed: " ++ exn_str ex));
                  ("type", VStr "AUTH_ERROR")]), st') /\
    initialized (bridge st') = initialized (bridge st) /\
    username (bridge st') = u /\ email (bridge st') = e /\ password (bridge st') = p.
Proof.
  intros Hfail Htw.
  pose proof (initialize_payload env u e p st) as Hp.
  pose proof (initialize_flag env u e p st) as Hf.
  pose proof (initialize_credentials env u e p st) as Hc.
  rewrite Hfail in Hp, Hf. unfold initialize_failed in Hp. rewrite Htw in Hp.
  destruct (initialize env u e p st) as [r st']. simpl in *.
  exists st'. rewrite Hp. auto.
Qed.

Lemma C3_auth_error_keeps_flag_witness :
  exists st',
    fst (initialize Stub.env (VStr "alice") (VStr "alice@example.org") (VStr "wrong")
           Stub.logged_in)
    = Ok (auth_error (Exn TwikitException "Could not authenticate you")) /\
    snd (initialize Stub.env (VStr "alice") (VStr "alice@example.org") (VStr "wrong")
           Stub.logged_in) = st' /\
    initialized (bridge st') = true /\ username (bridge st') = VStr "alice".
Proof.
  destruct (C3_auth_error_keeps_flag Stub.env (VStr "alice")
              (VStr "alice@example.org") (VStr "wrong") Stub.logged_in
              (Exn TwikitException "Could not authenticate you"))
    as (st' & Hrun & Hflag & Hu & _).
  - vm_compute. reflexivity.
  - reflexivity.
  - exists st'. rewrite Hrun. repeat split; assumption.
Defined.

(** C4.  While the flag [initialized] is false, [search_tweets] and
    [get_trending] return the NOT_INITIALIZED payload for every query
    and count, and the state after the call is the state before it: no
    call to the client is recorded. *)
Theorem C4_not_initialized
  (env : Env) (query count : pyval) (st : state) :
  initialized (bridge st) = false ->
  let payload :=
    VDict [("success", VBool false);
           ("error", VStr "Client not initialized. Call initialize first.");
           ("type", VStr "NOT_INITIALIZED")] in
  search_tweets env query count st = (Ok payload, st) /\
  get_trending env count st = (Ok payload, st).
Proof.
  intros H payload. split.
  - apply search_tweets_guard, H.
  - apply get_trending_guard, H.
Qed.

Lemma C4_not_initialized_witness :
  search_tweets Stub.env (VStr "cats") (VInt 2) start = (Ok not_initialized, start) /\
  get_trending Stub.env (VInt 2) start = (Ok not_initialized, start).
Proof.
  apply (C4_not_initialized Stub.env (VStr "cats") (VInt 2) start). reflexivity.
Defined.





Lemma initialize_accepted (env : Env) (u e p : pyval) (st : state) :
  accepts env u e p ->
  exists st',
    initialize env u e p st = (Ok (initialize_success u), st') /\
    initialized (bridge st') = true /\
    username (bridge st') = u /\ email (bridge st') = e /\ password (bridge st') = p.
Proof.
  intros [Hnew Hlogin]. rewrite initialize_eq. cbv zeta.
  rewrite Hnew, Hlogin. eexists. split; [reflexivity|]. simpl. auto.
Qed.

Lemma repeat_initialize_accepted (env : Env) (u e p : pyval) (n : nat) (st : state) :
  accepts env u e p ->
  exists st',
    repeat_initialize env (S n) u e p st
    = (Ok (repeat (initialize_success u) (S n)), st') /\
    initialized (bridge st') = true /\
    username (bridge st') = u /\ email (bridge st') = e /\ password (bridge st') = p.
Proof.
  intros Hacc. revert st. induction n as [|n IH]; intros st.
  - destruct (initialize_accepted env u e p st Hacc) as (st' & Hrun & Hrest).
    exists st'. split; [|exact Hrest].
    simpl. unfold bind. rewrite Hrun. reflexivity.
  - destruct (initialize_accepted env u e p st Hacc) as (st1 & Hrun & _).
    destruct (IH st1) as (st' & Hrep & Hrest).
    exists st'. split; [|exact Hrest].
    change (repeat_initialize env (S (S n)) u e p)
      with (r <- initialize env u e p ;;
            rs <- repeat_initialize env (S n) u e p ;; ret (r :: rs)).
    unfold bind at 1. rewrite Hrun. unfold bind at 1. rewrite Hrep. reflexivity.
Qed.

(** C8.  With credentials that the client accepts whenever they are
    presented, each of [n+1] calls of [initialize] in a row returns the
    success payload, and the session after the last call (flag and
    identity, and the stored email and password as well) is the session
    after the first. *)
Theorem C8_initialize_idempotent
  (env : Env) (u e p : pyval) (n : nat) (st : state) :
  accepts env u e p ->
  exists st1 stn,
    initialize env u e p st = (Ok (initialize_success u), st1) /\
    repeat_initialize env (S n) u e p st
    = (Ok (repeat (initialize_success u) (S n)), stn) /\
    session_state (bridge stn) = session_state (bridge st1) /\
    session_state (bridge stn) = (true, u) /\
    email (bridge stn) = email (bridge st1) /\
    password (bridge stn) = password (bridge st1).
Proof.
  intros Hacc.
  destruct (initialize_accepted env u e p st Hacc) as (st1 & H1 & Hi1 & Hu1 & He1 & Hp1).
  destruct (repeat_initialize_accepted env u e p n st Hacc)
    as (stn & Hn & Hin & Hun & Hen & Hpn).
  exists st1, stn. unfold session_state.
  repeat split; try assumption; congruence.
Qed.

Lemma C8_initialize_idempotent_witness :
  exists st1 st3,
    initialize Stub.env (VStr "u") (VStr "e") (VStr "p") start
    = (Ok (initialize_success (VStr "u")), st1) /\
    repeat_initialize Stub.env 3 (VStr "u") (VStr "e") (VStr "p") start
    = (Ok [initialize_success (VStr "u"); initialize_success (VStr "u");
           initialize_success (VStr "u")], st3) /\
    session_state (bridge st3) = session_state (bridge st1).
Proof.
  destruct (C8_initialize_idempotent Stub.env (VStr "u") (VStr "e") (VStr "p") 2 start)
    as (st1 & st3 & H1 & H3 & Hs & _).
  - split; intros; reflexivity.
  - exists st1, st3. repeat split; assumption.
Defined.

(* ------------------------------------------------------------------ *)
(** ** Batches *)

Lemma slice_to_nonneg {A : Type} (l : list A) (k : Z) :
  (0 <= k)%Z -> slice_to l k = firstn (Z.to_nat k) l.
Proof.
  intros H. unfold slice_to.
  destruct (k <? 0)%Z eqn:E; [apply Z.ltb_lt in E; lia | reflexivity].
Qed.

(** The slice [trends[:min(count, len(trends))]] for an integer count
    that is not negative: the first [count] trends. *)
Lemma kept_trends_nonneg (trends : list pyval) (count : Z) :
  (0 <= count)%Z ->
  exists bound,
    py_min (VInt count) (Z.of_nat (length trends)) = Ok bound /\
    py_slice_to trends bound = Ok (firstn (Z.to_nat count) trends).
Proof.
  intros H. unfold py_min, py_int_lt.
  destruct (Z.of_nat (length trends) <? count)%Z eqn:E.
  - exists (VInt (Z.of_nat (length trends))). split; [reflexivity|].
    apply Z.ltb_lt in E. simpl. rewrite slice_to_nonneg by lia.
    rewrite Nat2Z.id, !firstn_all2; [reflexivity | lia | lia].
  - exists (VInt count). split; [reflexivity|].
    simpl. rewrite slice_to_nonneg by exact H. reflexivity.
Qed.

(** C6 (as stated, refuted).  On the logged-in stub the client yields
    three trends, none of which fails to map; [get_trending] with count
    1 returns one item, not three. *)
Lemma C6_trending_truncates :
  exists trends results st',
    Client_get_trends Stub.env (calls Stub.logged_in) 0 = Ok trends /\
    length trends = 3 /\ dropped_count map_trend trends = 0 /\
    get_trending Stub.env (VInt 1) Stub.logged_in
    = (Ok (trending_success results), st') /\
    length results = 1 /\
    length results <> length trends - dropped_count map_trend trends.
Proof.
  do 3 eexists. split; [reflexivity|]. split; [reflexivity|].
  split; [reflexivity|]. split; [reflexivity|]. split; [reflexivity|].
  vm_compute. discriminate.
Qed.

(** C6 (amended).  On a bridge that passes the guard:
    - when the client answers [search_tweet] with [n] raw tweets of
      which [k] fail to map, [search_tweets] returns success true with
      the [n - k] items mapped from the others, in their order;
    - when the client answers [get_trends] with a list and count is an
      integer that is not negative, [get_trending] returns success true
      with the items mapped from those of the first [count] trends that
      map, in their order: [m - k] items when [m] trends are kept and
      [k] of them fail to map. *)
Theorem C6_partial_batch_is_success (env : Env) (st : state) (c : nat) :
  initialized (bridge st) = true ->
  client (bridge st) = Some c ->
  (forall query count tweets,
      Client_search_tweet env (calls st) c query count = Ok tweets ->
      exists results st',
        search_tweets env query count st
        = (Ok (VDict [("success", VBool true);
                      ("tweets", VList results);
                      ("count", VInt (Z.of_nat (length results)));
                      ("query", query)]), st') /\
        mapped_from (map_tweet env) tweets results /\
        length results = length tweets - dropped_count (map_tweet env) tweets) /\
  (forall count trends,
      Client_get_trends env (calls st) c = Ok trends ->
      (0 <= count)%Z ->
      let kept := firstn (Z.to_nat count) trends in
      exists results st',
        get_trending env (VInt count) st
        = (Ok (VDict [("success", VBool true);
                      ("trends", VList results);
                      ("count", VInt (Z.of_nat (length results)))]), st') /\
        mapped_from map_trend kept results /\
        length results = length kept - dropped_count map_trend kept).
Proof.
  intros Hi Hc. split.
  - intros query count tweets Hans.
    pose proof (search_tweets_run env query count st c Hi Hc) as H.
    rewrite Hans in H. destruct H as (results & st' & Hrun & _ & Hmap).
    exists results, st'. split; [exact Hrun|]. split; [exact Hmap|].
    apply mapped_from_length, Hmap.
  - intros count trends Hans Hcount kept.
    pose proof (get_trending_run env (VInt count) st c Hi Hc) as H.
    cbv zeta in H. rewrite Hans in H.
    destruct (kept_trends_nonneg trends count Hcount) as (bound & Hmin & Hslice).
    rewrite Hmin, Hslice in H. destruct H as (results & Hrun & Hmap).
    exists results, (record (EvGetTrends c) st).
    split; [exact Hrun|]. split; [exact Hmap|].
    apply mapped_from_length, Hmap.
Qed.

Lemma C6_partial_batch_is_success_witness :
  exists results st',
    search_tweets Stub.env (VStr "five") (VInt 20) Stub.logged_in
    = (Ok (search_success results (VStr "five")), st') /\
    length results = 4.
Proof.
  destruct (C6_partial_batch_is_success Stub.env Stub.logged_in 0) as [Hsearch _].
  - reflexivity.
  - reflexivity.
  - destruct (Hsearch (VStr "five") (VInt 20)
                [Stub.tweet "21" "a" Stub.good_date; Stub.tweet "22" "b" Stub.good_date;
                 Stub.broken_tweet;
                 Stub.tweet "24" "d" Stub.good_date; Stub.tweet "25" "e" Stub.good_date]
                eq_refl) as (results & st' & Hrun & _ & Hlen).
    exists results, st'. split; [exact Hrun|]. rewrite Hlen. reflexivity.
Defined.

(** For an integer count that is not negative the payload of
    [get_trending] holds at most [count] trends, and its count field is
    the length of its list. *)
Lemma get_trending_at_most (env : Env) (st : state) (c : nat) (count : Z)
  (trends : list pyval) :
  initialized (bridge st) = true -> client (bridge st) = Some c ->
  Client_get_trends env (calls st) c = Ok trends ->
  (0 <= count)%Z ->
  exists results st',
    get_trending env (VInt count) st = (Ok (trending_success results), st') /\
    (Z.of_nat (length results) <= count)%Z /\
    entry "count" (trending_success results) = Some (VInt (Z.of_nat (length results))).
Proof.
  intros Hi Hc Hans Hcount.
  pose proof (get_trending_run env (VInt count) st c Hi Hc) as H.
  cbv zeta in H. rewrite Hans in H.
  destruct (kept_trends_nonneg trends count Hcount) as (bound & Hmin & Hslice).
  rewrite Hmin, Hslice in H. destruct H as (results & Hrun & Hmap).
  exists results, (record (EvGetTrends c) st).
  split; [exact Hrun|]. split; [|reflexivity].
  apply mapped_from_le in Hmap.
  pose proof (firstn_le_length (Z.to_nat count) trends). lia.
Qed.

(** C10 (the code at the failing input).  With count [-1] the slice
    [trends[:min(-1, 3)]] is [trends[:-1]]: of the three trends that
    the client yields, two are returned, which is more than count. *)
Theorem C10_negative_count_not_truncated :
  exists trends results st',
    Client_get_trends Stub.env (calls Stub.logged_in) 0 = Ok trends /\
    length trends = 3 /\
    get_trending Stub.env (VInt (-1)) Stub.logged_in
    = (Ok (trending_success results), st') /\
    length results = 2 /\
    entry "count" (trending_success results) = Some (VInt 2) /\
    ~ (Z.of_nat (length results) <= -1)%Z.
Proof.
  do 3 eexists. split; [reflexivity|]. split; [reflexivity|].
  split; [reflexivity|]. split; [reflexivity|]. split; [reflexivity|].
  vm_compute. intros H. apply H. reflexivity.
Qed.

(* ------------------------------------------------------------------ *)
(** ** Further properties: the dispatcher *)

Lemma known_method_false (method : pyval) :
  known_method method = false ->
  py_eq_str method "initialize" = false /\
  py_eq_str method "search" = false /\
  py_eq_str method "trending" = false.
Proof.
  unfold known_method. intros H.
  apply orb_false_iff in H as [H H3]. apply orb_false_iff in H as [H1 H2]. auto.
Qed.

Lemma operation_of_known (method : pyval) (params : list (string * pyval)) :
  known_method method = negb (match operation_of method params with
                              | Some _ => false
                              | None => true
                              end).
Proof.
  unfold known_method, operation_of.
  destruct (py_eq_str method "initialize"); [reflexivity|].
  destruct (py_eq_str method "search"); [reflexivity|].
  destruct (py_eq_str method "trending"); reflexivity.
Qed.

(** The body of the [try] on an object of parameters: the handler that
    the table selects runs on the extracted arguments, and its payload
    is wrapped with the id. *)
Lemma dispatch_operation (env : Env) (method : pyval)
  (params : list (string * pyval)) (request_id : pyval) (st : state) :
  dispatch env method (VDict params) request_id st =
  match operation_of method params with
  | Some op =>
      match run_op env op st with
      | (Ok payload, st') => (Ok (result_envelope payload request_id), st')
      | (Raise e, st') => (Raise e, st')
      end
  | None => (Ok (method_not_found env method request_id), st)
  end.
Proof.
  unfold dispatch, operation_of, param. rewrite !dict_get_dict, !bind_ret_l.
  destruct (py_eq_str method "initialize"); [reflexivity|].
  destruct (py_eq_str method "search"); [reflexivity|].
  destruct (py_eq_str method "trending"); reflexivity.
Qed.

Lemma run_op_total (env : Env) (op : operation) : total (run_op env op).
Proof.
  destruct op; simpl;
    [apply total_initialize | apply total_search_tweets | apply total_get_trending].
Qed.

(** X1.  A request object whose method is none of [initialize],
    [search], [trending] (a missing method reads as None) is answered
    with the error -32601 "Method not found: <method>" and the id of
    the request; the parameters are not looked at, so they may be
    anything, and the state is left as it was. *)
Theorem X1_unknown_method (env : Env) (kv : list (string * pyval)) (st : state) :
  known_method (param kv "method" VNone) = false ->
  handle_request env (VDict kv) st =
  (Ok (VDict [("jsonrpc", VStr "2.0");
              ("error", VDict [("code", VInt (-32601));
                               ("message",
                                VStr ("Method not found: "
                                        ++ py_str env (param kv "method" VNone)))]);
              ("id", param kv "id" VNone)]), st).
Proof.
  intros H. apply known_method_false in H as (H1 & H2 & H3).
  unfold handle_request, param in *. rewrite !dict_get_dict, !bind_ret_l.
  unfold try_except, dispatch. rewrite H1, H2, H3. reflexivity.
Qed.

Lemma X1_unknown_method_witness :
  handle_request Stub.env
    (VDict [("id", VStr "a-7"); ("params", VInt 3); ("method", VStr "delete")])
    Stub.logged_in
  = (Ok (VDict [("jsonrpc", VStr "2.0");
                ("error", VDict [("code", VInt (-32601));
                                 ("message", VStr "Method not found: delete")]);
                ("id", VStr "a-7")]), Stub.logged_in).
Proof.
  apply (X1_unknown_method Stub.env
           [("id", VStr "a-7"); ("params", VInt 3); ("method", VStr "delete")]
           Stub.logged_in).
  reflexivity.
Defined.

(** The three shapes of a response of [handle_request] to an object. *)
Lemma handle_request_cases (env : Env) (kv : list (string * pyval))
  (st st' : state) (r : pyval) :
  handle_request env (VDict kv) st = (Ok r, st') ->
  let method := param kv "method" VNone in
  let request_id := param kv "id" VNone in
  (exists params op payload,
      param kv "params" (VDict []) = VDict params /\
      operation_of method params = Some op /\
      run_op env op st = (Ok payload, st') /\
      r = result_envelope payload request_id) \/
  (known_method method = false /\ st' = st /\
   r = method_not_found env method request_id) \/
  (known_method method = true /\ st' = st /\
   is_dict (param kv "params" (VDict [])) = false /\
   r = internal_error env (no_get (param kv "params" (VDict []))) request_id).
Proof.
  intros Hr method request_id. unfold handle_request in Hr.
  rewrite !dict_get_dict, !bind_ret_l in Hr. fold (param kv "method" VNone) in Hr.
  fold (param kv "params" (VDict [])) in Hr. fold (param kv "id" VNone) in Hr.
  fold method request_id in Hr. unfold try_except in Hr.
  destruct (param kv "params" (VDict [])) as [| | | | | | params |] eqn:Hp.
  7: { rewrite dispatch_operation in Hr.
       destruct (operation_of method params) as [op|] eqn:Hop.
       - left. destruct (run_op_total env op st) as (payload & s & Hrun).
         rewrite Hrun in Hr. injection Hr as <- <-.
         exists params, op, payload. auto.
       - right. left. injection Hr as <- <-.
         rewrite (operation_of_known method params), Hop. auto. }
  all: match type of Hr with
       | context [dispatch ?e ?m ?p ?i ?s] =>
           pose proof (dispatch_run e m p i s) as H
       end;
       cbn [is_dict] in H;
       destruct (known_method method); rewrite H in Hr; injection Hr as <- <-;
       [right; right | right; left]; auto.
Qed.

(** X2.  Every response of [handle_request] to a request object is an
    envelope with jsonrpc "2.0" and the id of the request (null when
    the request has none), and it holds either a result and no error,
    or an error and no result; the code of the error is -32601 or
    -32603. *)
Theorem X2_envelope_shape (env : Env) (kv : list (string * pyval))
  (st st' : state) (r : pyval) :
  handle_request env (VDict kv) st = (Ok r, st') ->
  entry "jsonrpc" r = Some (VStr "2.0") /\
  entry "id" r = Some (param kv "id" VNone) /\
  ((exists payload, entry "result" r = Some payload /\ entry "error" r = None) \/
   (exists code message,
       entry "result" r = None /\
       (exists err, entry "error" r = Some err /\
                    entry "code" err = Some (VInt code) /\
                    entry "message" err = Some (VStr message)) /\
       (code = -32601 \/ code = -32603)%Z)).
Proof.
  intros Hr.
  destruct (handle_request_cases env kv st st' r Hr)
    as [(params & op & payload & _ & _ & _ & ->) | [(_ & _ & ->) | (_ & _ & _ & ->)]].
  - repeat split. left. exists payload. split; reflexivity.
  - repeat split. right. do 2 eexists. split; [reflexivity|].
    split; [eexists; repeat split; reflexivity|]. left. reflexivity.
  - repeat split. right. do 2 eexists. split; [reflexivity|].
    split; [eexists; repeat split; reflexivity|]. right. reflexivity.
Qed.

Lemma X2_envelope_shape_witness :
  exists r st',
    handle_request Stub.env Stub.req_bad_params start = (Ok r, st') /\
    entry "id" r = Some (VInt 7) /\ entry "result" r = None.
Proof.
  eexists. eexists. split; [vm_compute; reflexivity|].
  destruct (X2_envelope_shape Stub.env
              [("jsonrpc", VStr "2.0"); ("method", VStr "search");
               ("params", VList [VInt 1]); ("id", VInt 7)] start start
              (internal_error Stub.env (no_get (VList [VInt 1])) (VInt 7)))
    as (_ & Hid & _).
  - vm_compute. reflexivity.
  - split; [exact Hid | reflexivity].
Defined.

Lemma call_failed_is_failure (env : Env) (what : string) (ex : exn) :
  is_failure_payload (call_failed env what ex).
Proof.
  unfold call_failed, is_failure_payload, failure_types.
  destruct (is_twikit ex); simpl; repeat split; eauto 10.
Qed.

Lemma not_initialized_is_failure : is_failure_payload not_initialized.
Proof.
  unfold is_failure_payload, failure_types. simpl. repeat split; eauto 10.
Qed.

Lemma initialize_failed_is_failure (env : Env) (ex : exn) :
  is_failure_payload (initialize_failed env ex).
Proof.
  unfold initialize_failed, is_failure_payload, failure_types.
  destruct (is_twikit ex); simpl; repeat split; eauto 10.
Qed.

(** X3.  Each of the three operations of the bridge returns, from any
    state and for any arguments and any behaviour of the client, a
    payload whose field success is a boolean: either success true, or
    success false with a text under error and a type that is one of
    NOT_INITIALIZED, AUTH_ERROR, API_ERROR, UNKNOWN_ERROR.  No
    exception leaves an operation. *)
Theorem X3_payload_shape (env : Env) (op : operation) (st : state) :
  exists payload st',
    run_op env op st = (Ok payload, st') /\
    (entry "success" payload = Some (VBool true) \/ is_failure_payload payload).
Proof.
  destruct (run_op_total env op st) as (payload & st' & Hrun).
  exists payload, st'. split; [exact Hrun|].
  destruct op as [u e p | query count | count]; simpl in Hrun.
  - pose proof (initialize_payload env u e p st) as H. rewrite Hrun in H.
    simpl in H. destruct (initialize_failure env u e p st); injection H as ->.
    + right. apply initialize_failed_is_failure.
    + left. reflexivity.
  - destruct (initialized (bridge st)) eqn:Hi.
    + destruct (client (bridge st)) as [c|] eqn:Hc.
      * pose proof (search_tweets_run env query count st c Hi Hc) as H.
        destruct (Client_search_tweet env (calls st) c query count).
        -- destruct H as (results & s & H & _). rewrite Hrun in H.
           injection H as -> _. left. reflexivity.
        -- rewrite Hrun in H. injection H as -> _. right.
           apply call_failed_is_failure.
      * unfold search_tweets, no_client in Hrun. unfold_m. rewrite Hi, Hc in Hrun.
        injection Hrun as <- _. right. apply not_initialized_is_failure.
    + rewrite (search_tweets_guard env query count st Hi) in Hrun.
      injection Hrun as <- _. right. apply not_initialized_is_failure.
  - destruct (initialized (bridge st)) eqn:Hi.
    + destruct (client (bridge st)) as [c|] eqn:Hc.
      * pose proof (get_trending_run env count st c Hi Hc) as H. cbv zeta in H.
        destruct (Client_get_trends env (calls st) c) as [trends|ex].
        -- destruct (py_min count (Z.of_nat (length trends))) as [bound|ex].
           ++ destruct (py_slice_to trends bound) as [kept|ex].
              ** destruct H as (results & H & _). rewrite Hrun in H.
                 injection H as -> _. left. reflexivity.
              ** rewrite Hrun in H. injection H as -> _. right.
                 apply call_failed_is_failure.
           ++ rewrite Hrun in H. injection H as -> _. right.
              apply call_failed_is_failure.
        -- rewrite Hrun in H. injection H as -> _. right.
           apply call_failed_is_failure.
      * unfold get_trending, no_client in Hrun. unfold_m. rewrite Hi, Hc in Hrun.
        injection Hrun as <- _. right. apply not_initialized_is_failure.
    + rewrite (get_trending_guard env count st Hi) in Hrun.
      injection Hrun as <- _. right. apply not_initialized_is_failure.
Qed.

(* ------------------------------------------------------------------ *)
(** ** Further properties: the handlers *)

Lemma pure_snd {A : Type} (m : M A) (st : state) : pure m -> snd (m st) = st.
Proof. intros Hm. rewrite (Hm st). reflexivity. Qed.

Lemma reads_clock_pure {A : Type} (m : M A) : pure m -> reads_clock 0 m.
Proof.
  intros Hm st. exists 0. split; [lia|].
  rewrite (pure_snd m st Hm). simpl. rewrite app_nil_r. reflexivity.
Qed.

Lemma reads_clock_weaken {A : Type} (n n' : nat) (m : M A) :
  n <= n' -> reads_clock n m -> reads_clock n' m.
Proof.
  intros Hn Hm st. destruct (Hm st) as (k & Hk & H). exists k. split; [lia | exact H].
Qed.

Lemma reads_clock_bind {A B : Type} (a b : nat) (m : M A) (k : A -> M B) :
  reads_clock a m -> (forall x, reads_clock b (k x)) -> reads_clock (a + b) (bind m k).
Proof.
  intros Hm Hk st. unfold bind. destruct (Hm st) as (i & Hi & H).
  destruct (m st) as [[x|e] st1]; simpl in *.
  - destruct (Hk x st1) as (j & Hj & H'). exists (i + j). split; [lia|].
    rewrite H', H, <- app_assoc, repeat_app. reflexivity.
  - exists i. split; [lia | exact H].
Qed.

Lemma reads_clock_try {A : Type} (a b : nat) (body : M A) (handler : exn -> M A) :
  reads_clock a body -> (forall e, reads_clock b (handler e)) ->
  reads_clock (a + b) (try_except body handler).
Proof.
  intros Hm Hh st. unfold try_except. destruct (Hm st) as (i & Hi & H).
  destruct (body st) as [[x|e] st1]; simpl in *.
  - exists i. split; [lia | exact H].
  - destruct (Hh e st1) as (j & Hj & H'). exists (i + j). split; [lia|].
    rewrite H', H, <- app_assoc, repeat_app. reflexivity.
Qed.

Section Traces.

Variable env : Env.

Lemma reads_clock_parse_timestamp (created_at : pyval) :
  reads_clock 1 (parse_timestamp env created_at).
Proof.
  intros st. rewrite parse_timestamp_eq.
  destruct (spec_parsed_date env created_at).
  - exists 0. split; [lia|]. simpl. rewrite app_nil_r. reflexivity.
  - exists 1. split; [lia|]. reflexivity.
Qed.

(** Mapping a tweet reads the clock at most once and calls nothing else. *)
Lemma reads_clock_map_tweet (tweet : pyval) : reads_clock 1 (map_tweet env tweet).
Proof.
  unfold map_tweet.
  do 6 (apply (reads_clock_bind 0 1); [apply reads_clock_pure; pure_chain | intros ?]).
  apply (reads_clock_bind 1 0); [apply reads_clock_parse_timestamp | intros ?].
  apply reads_clock_pure. pure_chain.
Qed.

Lemma reads_clock_tweets_loop (tweets acc : list pyval) :
  reads_clock (length tweets) (tweets_loop env tweets acc).
Proof.
  revert acc. induction tweets as [|tweet rest IH]; intros acc.
  - apply reads_clock_pure, pure_ret.
  - change (length (tweet :: rest)) with (1 + length rest).
    simpl tweets_loop. apply reads_clock_bind; [|intros ?; apply IH].
    apply (reads_clock_try 1 0).
    + apply (reads_clock_bind 1 0); [apply reads_clock_map_tweet|].
      intros ?. apply reads_clock_pure, pure_ret.
    + intros ?. apply reads_clock_pure, pure_ret.
Qed.

(** [search_tweets] on a bridge that passes the guard, by the answer of
    the client: the state after is the one the batch loop leaves. *)
Lemma search_tweets_state (query count : pyval) (st : state) (c : nat) :
  initialized (bridge st) = true -> client (bridge st) = Some c ->
  snd (search_tweets env query count st) =
  match Client_search_tweet env (calls st) c query count with
  | Ok tweets => snd (tweets_loop env tweets [] (record (EvSearchTweet c query count) st))
  | Raise _ => record (EvSearchTweet c query count) st
  end.
Proof.
  intros Hi Hc. unfold search_tweets, no_client, the_client.
  unfold try_except, bind, get_bridge, search_tweet, ret, raise. cbv beta.
  rewrite Hi, Hc. cbn [negb orb]. cbv beta iota. rewrite Hc. cbv beta iota.
  destruct (Client_search_tweet env (calls st) c query count) as [tweets|ex].
  - destruct (tweets_loop_run env tweets [] (record (EvSearchTweet c query count) st))
      as (results & st' & Hrun & _). rewrite Hrun. reflexivity.
  - destruct (is_twikit ex); reflexivity.
Qed.

End Traces.

(** X4.  On a bridge that passes the guard, an exception of the client
    in [search_tweet] or [get_trends] does not leave the handler: the
    payload is success false with type API_ERROR and the text "Twitter
    API error: <detail>" when the exception is of the client's own
    class, and with type UNKNOWN_ERROR, the text "Search failed:
    <detail>" or "Trending fetch failed: <detail>" and a traceback
    otherwise.  The one call is recorded; bridge and output are
    unchanged. *)
Theorem X4_capability_failure_is_payload
  (env : Env) (st : state) (c : nat) (ex : exn) :
  initialized (bridge st) = true ->
  client (bridge st) = Some c ->
  let payload (what : string) :=
    if is_twikit ex then
      VDict [("success", VBool false);
             ("error", VStr ("Twitter API error: " ++ exn_str ex));
             ("type", VStr "API_ERROR")]
    else
      VDict [("success", VBool false);
             ("error", VStr (what ++ exn_str ex));
             ("type", VStr "UNKNOWN_ERROR");
             ("traceback", VStr (format_exc env ex))] in
  (forall query count,
      Client_search_tweet env (calls st) c query count = Raise ex ->
      search_tweets env query count st
      = (Ok (payload "Search failed: "),
         {| bridge := bridge st;
            calls := calls st ++ [EvSearchTweet c query count];
            stdout := stdout st |})) /\
  (forall count,
      Client_get_trends env (calls st) c = Raise ex ->
      get_trending env count st
      = (Ok (payload "Trending fetch failed: "),
         {| bridge := bridge st;
            calls := calls st ++ [EvGetTrends c];
            stdout := stdout st |})).
Proof.
  intros Hi Hc payload. split.
  - intros query count Hans.
    pose proof (search_tweets_run env query count st c Hi Hc) as H.
    rewrite Hans in H. rewrite H. unfold call_failed, payload.
    destruct (is_twikit ex); reflexivity.
  - intros count Hans.
    pose proof (get_trending_run env count st c Hi Hc) as H. cbv zeta in H.
    rewrite Hans in H. rewrite H. unfold call_failed, payload.
    destruct (is_twikit ex); reflexivity.
Qed.

Lemma X4_capability_failure_is_payload_witness :
  fst (search_tweets Stub.env (VStr "down") (VInt 5) Stub.logged_in)
  = Ok (api_error (Exn TwikitException "status: 503")).
Proof.
  destruct (X4_capability_failure_is_payload Stub.env Stub.logged_in 0
              (Exn TwikitException "status: 503") eq_refl eq_refl) as [Hsearch _].
  rewrite (Hsearch (VStr "down") (VInt 5) eq_refl). reflexivity.
Defined.

(** X5.  When the client answers a call of [initialize] with an
    exception that is not of its own class, the payload is success
    false, error "Initialization failed: <detail>", type UNKNOWN_ERROR,
    with a traceback.  The flag [initialized] is as before.  The client
    of the bridge is as before when it was the constructor that raised,
    and is the new client when it was the login. *)
Theorem X5_initialize_unknown_error
  (env : Env) (u e p : pyval) (st : state) (ex : exn) :
  initialize_failure env u e p st = Some ex ->
  is_twikit ex = false ->
  exists st',
    initialize env u e p st
    = (Ok (VDict [("success", VBool false);
                  ("error", VStr ("Initialization failed: " ++ exn_str ex));
                  ("type", VStr "UNKNOWN_ERROR");
                  ("traceback", VStr (format_exc env ex))]), st') /\
    initialized (bridge st') = initialized (bridge st) /\
    client (bridge st') =
      match Client_new env (calls st) with
      | Some _ => client (bridge st)
      | None => Some (length (calls st))
      end /\
    stdout st' = stdout st.
Proof.
  intros Hfail Htw. rewrite initialize_eq. cbv zeta.
  unfold initialize_failure in Hfail. unfold initialize_failed.
  destruct (Client_new env (calls st)) as [ex0|].
  - injection Hfail as ->. rewrite Htw. eexists. repeat split.
  - rewrite Hfail, Htw. eexists. repeat split.
Qed.

Lemma X5_initialize_unknown_error_witness :
  exists st',
    initialize
      {| Client_new := fun _ => Some (Exn OtherException "no network");
         Client_login := Client_login Stub.env;
         Client_search_tweet := Client_search_tweet Stub.env;
         Client_get_trends := Client_get_trends Stub.env;
         now_isoformat := now_isoformat Stub.env;
         strptime_isoformat := strptime_isoformat Stub.env;
         json_loads := json_loads Stub.env;
         repr_other := repr_other Stub.env;
         format_exc := format_exc Stub.env |}
      (VStr "u") (VStr "e") (VStr "p") Stub.logged_in
    = (Ok (VDict [("success", VBool false);
                  ("error", VStr "Initialization failed: no network");
                  ("type", VStr "UNKNOWN_ERROR");
                  ("traceback",
                   VStr "Traceback (most recent call last): no network")]), st') /\
    initialized (bridge st') = true /\ client (bridge st') = Some 0.
Proof.
  destruct (X5_initialize_unknown_error
              {| Client_new := fun _ => Some (Exn OtherException "no network");
                 Client_login := Client_login Stub.env;
                 Client_search_tweet := Client_search_tweet Stub.env;
                 Client_get_trends := Client_get_trends Stub.env;
                 now_isoformat := now_isoformat Stub.env;
                 strptime_isoformat := strptime_isoformat Stub.env;
                 json_loads := json_loads Stub.env;
                 repr_other := repr_other Stub.env;
                 format_exc := format_exc Stub.env |}
              (VStr "u") (VStr "e") (VStr "p") Stub.logged_in
              (Exn OtherException "no network") eq_refl eq_refl)
    as (st' & Hrun & Hflag & Hclient & _).
  exists st'. split; [exact Hrun|]. split; [exact Hflag | exact Hclient].
Defined.

Lemma search_tweets_trace
  (env : Env) (query count : pyval) (st : state) (c : nat) :
  initialized (bridge st) = true ->
  client (bridge st) = Some c ->
  exists k,
    calls (snd (search_tweets env query count st))
    = calls st ++ EvSearchTweet c query count :: repeat EvNow k /\
    k <= match Client_search_tweet env (calls st) c query count with
         | Ok tweets => length tweets
         | Raise _ => 0
         end.
Proof.
  intros Hi Hc. rewrite (search_tweets_state env query count st c Hi Hc).
  destruct (Client_search_tweet env (calls st) c query count) as [tweets|ex].
  - destruct (reads_clock_tweets_loop env tweets []
                (record (EvSearchTweet c query count) st)) as (k & Hk & H).
    exists k. split; [|exact Hk]. rewrite H. simpl. rewrite <- app_assoc. reflexivity.
  - exists 0. split; [reflexivity | lia].
Qed.

(** X6.  On a bridge that passes the guard, [search_tweets] makes one
    call to the client, [search_tweet] with the query and the count it
    was given, and after it only reads the clock, at most once for each
    raw tweet of the answer and not at all when the client raises; it
    never constructs a client and never logs in. *)
Theorem X6_search_trace
  (env : Env) (query count : pyval) (st : state) (c : nat) :
  initialized (bridge st) = true ->
  client (bridge st) = Some c ->
  exists k,
    calls (snd (search_tweets env query count st))
    = calls st ++ EvSearchTweet c query count :: repeat EvNow k /\
    k <= match Client_search_tweet env (calls st) c query count with
         | Ok tweets => length tweets
         | Raise _ => 0
         end.
Proof.
  intros Hi Hc. rewrite (search_tweets_state env query count st c Hi Hc).
  destruct (Client_search_tweet env (calls st) c query count) as [tweets|ex].
  - destruct (reads_clock_tweets_loop env tweets []
                (record (EvSearchTweet c query count) st)) as (k & Hk & H).
    exists k. split; [|exact Hk]. rewrite H. simpl. rewrite <- app_assoc. reflexivity.
  - exists 0. split; [reflexivity | lia].
Qed.

Lemma X6_search_trace_witness :
  calls (snd (search_tweets Stub.env (VStr "cats") (VInt 2) Stub.logged_in))
  = calls Stub.logged_in ++ [EvSearchTweet 0 (VStr "cats") (VInt 2); EvNow].
Proof.
  destruct (X6_search_trace Stub.env (VStr "cats") (VInt 2) Stub.logged_in 0
              eq_refl eq_refl) as (k & H & _).
  vm_compute. reflexivity.
Defined.

(** X7.  On a bridge that passes the guard, [get_trending] calls
    [get_trends] once, before it looks at count and without passing it:
    whatever count is, and whether the payload is a success or a
    failure, the state after the call is the state before it with that
    one call recorded. *)
Theorem X7_trending_state (env : Env) (count : pyval) (st : state) (c : nat) :
  initialized (bridge st) = true ->
  client (bridge st) = Some c ->
  snd (get_trending env count st)
  = {| bridge := bridge st; calls := calls st ++ [EvGetTrends c];
       stdout := stdout st |}.
Proof.
  intros Hi Hc. pose proof (get_trending_run env count st c Hi Hc) as H.
  cbv zeta in H.
  destruct (Client_get_trends env (calls st) c) as [trends|ex];
    [destruct (py_min count (Z.of_nat (length trends))) as [bound|ex];
     [destruct (py_slice_to trends bound) as [kept|ex]|]|].
  1: destruct H as (results & H & _).
  all: rewrite H; reflexivity.
Qed.

Lemma X7_trending_state_witness :
  calls (snd (get_trending Stub.env (VStr "many") Stub.logged_in))
  = [EvClient; EvLogin 0 (VStr "u") (VStr "e") (VStr "p"); EvGetTrends 0].
Proof.
  rewrite (X7_trending_state Stub.env (VStr "many") Stub.logged_in 0 eq_refl eq_refl).
  reflexivity.
Defined.

(** X8.  A count that cannot be compared with an integer (null, a
    text, an array, an object) makes [min] raise after the client has
    answered: the payload of [get_trending] is the business failure
    UNKNOWN_ERROR with the text "Trending fetch failed: '<' not
    supported between instances of 'int' and '<type>'", not a protocol
    error. *)
Theorem X8_trending_incomparable_count
  (env : Env) (count : pyval) (st : state) (c : nat) (trends : list pyval) :
  initialized (bridge st) = true ->
  client (bridge st) = Some c ->
  Client_get_trends env (calls st) c = Ok trends ->
  incomparable count = true ->
  let ex := Exn TypeError
              ("'<' not supported between instances of 'int' and '"
                 ++ type_name count ++ "'") in
  fst (get_trending env count st)
  = Ok (VDict [("success", VBool false);
               ("error", VStr ("Trending fetch failed: " ++ exn_str ex));
               ("type", VStr "UNKNOWN_ERROR");
               ("traceback", VStr (format_exc env ex))]).
Proof.
  intros Hi Hc Hans Hcount ex.
  pose proof (get_trending_run env count st c Hi Hc) as H. cbv zeta in H.
  rewrite Hans in H.
  assert (Hmin : py_min count (Z.of_nat (length trends)) = Raise ex).
  { destruct count; try discriminate; reflexivity. }
  rewrite Hmin in H. rewrite H. reflexivity.
Qed.

Lemma X8_trending_incomparable_count_witness :
  exists payload,
    fst (get_trending Stub.env VNone Stub.logged_in) = Ok payload /\
    entry "type" payload = Some (VStr "UNKNOWN_ERROR") /\
    entry "error" payload
    = Some (VStr "Trending fetch failed: '<' not supported between instances of 'int' and 'NoneType'").
Proof.
  eexists. split.
  - apply (X8_trending_incomparable_count Stub.env VNone Stub.logged_in 0
             [Stub.trend "#one"; Stub.trend "#two"; Stub.trend "#three"]);
      reflexivity.
  - split; reflexivity.
Defined.

(* ------------------------------------------------------------------ *)
(** ** Further properties: mapping raw items *)

Lemma py_or_zero (x : pyval) :
  py_or x (VInt 0) = VInt 0 \/ truthy (py_or x (VInt 0)) = true.
Proof. unfold py_or. destruct (truthy x) eqn:E; [right; exact E | left; reflexivity]. Qed.

Lemma prefix_empty (s : string) : prefix "" s = true.
Proof. destruct s; reflexivity. Qed.

(** X9.  Every item that [search_tweets] maps from a raw tweet is an
    object with the twelve keys id, text, author, username, timestamp,
    url, likes, retweets, replies, views, images, platform, in this
    order.  Its platform is "twitter", its timestamp a text, its images
    an array, its url a text that starts with "https://twitter.com/",
    and each of its four counts is the integer 0 or a value that Python
    holds true: a count that the client gives as None, 0 or any other
    false value is written as 0. *)
Theorem X9_tweet_item_shape (env : Env) (tweet item : pyval) (st st' : state) :
  map_tweet env tweet st = (Ok item, st') ->
  keys_of item = tweet_keys /\
  entry "platform" item = Some (VStr "twitter") /\
  (exists ts, entry "timestamp" item = Some (VStr ts)) /\
  (exists urls, entry "images" item = Some (VList urls)) /\
  (exists u, entry "url" item = Some (VStr u) /\ prefix "https://twitter.com/" u = true) /\
  (forall key, In key ["likes"; "retweets"; "replies"; "views"] ->
               exists v, entry key item = Some v /\ (v = VInt 0 \/ truthy v = true)).
Proof.
  intros H. unfold map_tweet in H.
  do 6 pure_step H.
  apply bind_ok in H as (ts & s & _ & H).
  do 8 pure_step H.
  unfold ret in H. injection H as <- _.
  split; [reflexivity|]. split; [reflexivity|].
  split; [eexists; reflexivity|]. split; [eexists; reflexivity|].
  split; [eexists; split; [reflexivity | simpl; apply prefix_empty]|].
  intros key [<- | [<- | [<- | [<- | []]]]]; eexists; (split; [reflexivity|]);
    apply py_or_zero.
Qed.

Lemma X9_tweet_item_shape_witness :
  exists item st',
    map_tweet Stub.env (Stub.tweet "11" "cats!" Stub.good_date) start = (Ok item, st') /\
    entry "retweets" item = Some (VInt 0) /\ entry "likes" item = Some (VInt 3) /\
    keys_of item = tweet_keys.
Proof.
  eexists. eexists. split; [vm_compute; reflexivity|].
  split; [reflexivity|]. split; [reflexivity|].
  refine (proj1 (X9_tweet_item_shape Stub.env
                   (Stub.tweet "11" "cats!" Stub.good_date) _ start _ _)).
  vm_compute. reflexivity.
Defined.

Lemma media_loop_urls (items acc : list pyval) (st : state) :
  forallb no_raising_url items = true ->
  media_loop items acc st = (Ok (acc ++ media_urls_of items), st).
Proof.
  revert acc. induction items as [|media rest IH]; intros acc H.
  - simpl. rewrite app_nil_r. reflexivity.
  - simpl in H. apply andb_true_iff in H as [Hm Hrest].
    simpl. unfold hasattr, getfield, no_raising_url, raises in *.
    destruct (py_getattr media "media_url_https") as [|url|e];
      [| |destruct (is_attribute_error e); [|discriminate]];
      unfold bind, ret; cbv beta iota.
    + apply IH, Hrest.
    + rewrite (IH (acc ++ [url]) Hrest), <- app_assoc. reflexivity.
    + apply IH, Hrest.
Qed.

Lemma media_loop_raises (items acc : list pyval) (st : state) :
  forallb no_raising_url items = false ->
  exists e, media_loop items acc st = (Raise e, st).
Proof.
  revert acc. induction items as [|media rest IH]; intros acc H; [discriminate|].
  simpl in H. simpl. unfold hasattr, getfield, no_raising_url, raises in *.
  destruct (py_getattr media "media_url_https") as [|url|e];
    [| |destruct (is_attribute_error e)];
    unfold bind, ret, raise; cbv beta iota; simpl in H.
  - apply IH, H.
  - apply IH, H.
  - apply IH, H.
  - eauto.
Qed.

Lemma extract_media_list (tweet : pyval) (items : list pyval) (st : state) :
  py_getattr tweet "media" = Has (VList items) ->
  extract_media tweet st =
  if forallb no_raising_url items
  then (Ok (media_urls_of items), st)
  else (fst (extract_media tweet st), st).
Proof.
  intros Hm. destruct (forallb no_raising_url items) eqn:Hurls.
  - unfold extract_media, hasattr, getfield. rewrite Hm.
    unfold bind, ret, lift. cbv beta iota.
    destruct items as [|media rest]; [reflexivity|].
    cbn [truthy py_iter]. apply (media_loop_urls (media :: rest) [] st Hurls).
  - rewrite (pure_extract_media tweet st). reflexivity.
Qed.

(** X10.  When the media of a raw tweet is a list, the images of the
    mapped item are the [media_url_https] of the media that have this
    attribute, in the order of the list; the media without it, and
    those for which reading it raises [AttributeError], are skipped, as
    [hasattr] is false for them.  If reading the attribute raises
    another exception for some medium, the tweet is dropped.  A raw
    tweet without the attribute media has no images. *)
Theorem X10_images (env : Env) (tweet : pyval) (st : state) :
  (forall items,
      py_getattr tweet "media" = Has (VList items) ->
      if forallb no_raising_url items then
        forall item st',
          map_tweet env tweet st = (Ok item, st') ->
          entry "images" item = Some (VList (media_urls_of items))
      else is_ok (map_tweet env tweet st) = false) /\
  (py_getattr tweet "media" = Missing ->
   forall item st',
     map_tweet env tweet st = (Ok item, st') ->
     entry "images" item = Some (VList [])).
Proof.
  split.
  - intros items Hm. destruct (forallb no_raising_url items) eqn:Hurls.
    + intros item st' H. unfold map_tweet in H.
      apply bind_ok in H as (urls & s & E & H).
      rewrite (extract_media_list tweet items st Hm), Hurls in E.
      injection E as <- <-.
      do 5 pure_step H. apply bind_ok in H as (ts & s & _ & H). do 8 pure_step H.
      unfold ret in H. injection H as <- _. reflexivity.
    + unfold is_ok, map_tweet, bind.
      assert (E : exists e, extract_media tweet st = (Raise e, st)).
      { unfold extract_media, hasattr, getfield. rewrite Hm.
        unfold bind, ret, lift. cbv beta iota.
        destruct items as [|media rest]; [discriminate|].
        cbn [truthy py_iter]. apply media_loop_raises, Hurls. }
      destruct E as (e & ->). reflexivity.
  - intros Hm item st' H. unfold map_tweet in H.
    apply bind_ok in H as (urls & s & E & H).
    unfold extract_media, hasattr in E. rewrite Hm in E.
    unfold bind, ret in E. injection E as <- <-.
    do 5 pure_step H. apply bind_ok in H as (ts & s & _ & H). do 8 pure_step H.
    unfold ret in H. injection H as <- _. reflexivity.
Qed.

Lemma X10_images_witness :
  exists item st',
    map_tweet Stub.env
      (VObj "Tweet"
         [("media", Has (VList [VObj "Photo" [("media_url_https", Has (VStr "a.jpg"))];
                                VObj "Poll" [];
                                VObj "Gif" [("media_url_https",
                                             Raising (Exn AttributeError "no url"))];
                                VObj "Video" [("media_url_https", Has (VStr "b.jpg"))]]))])
      start = (Ok item, st') /\
    entry "images" item = Some (VList [VStr "a.jpg"; VStr "b.jpg"]).
Proof.
  eexists. eexists. split; [vm_compute; reflexivity|].
  destruct (X10_images Stub.env
              (VObj "Tweet"
                 [("media",
                   Has (VList [VObj "Photo" [("media_url_https", Has (VStr "a.jpg"))];
                               VObj "Poll" [];
                               VObj "Gif" [("media_url_https",
                                            Raising (Exn AttributeError "no url"))];
                               VObj "Video" [("media_url_https", Has (VStr "b.jpg"))]]))])
              start) as [Hlist _].
  specialize (Hlist _ eq_refl). cbv beta iota in Hlist.
  eapply (Hlist _ _). vm_compute. reflexivity.
Defined.

(** A medium whose URL raises something else than [AttributeError]
    drops the tweet. *)
Example run_media_key_error :
  is_ok (map_tweet Stub.env
           (VObj "Tweet"
              [("media", Has (VList [VObj "Photo"
                                       [("media_url_https",
                                         Raising (Exn OtherException "'url'"))]]))])
           start) = false.
Proof. vm_compute. reflexivity. Qed.

(** A trend whose name is a property that raises [AttributeError] is
    kept, with the default name; with another exception it is dropped. *)
Example run_trend_attribute_error :
  fst (map_trend (VObj "Trend" [("name", Raising (Exn AttributeError "boom"));
                                ("url", Has (VStr "/t"))]) start)
  = Ok (VDict [("name", VStr ""); ("url", VStr "/t");
               ("tweet_volume", VNone); ("platform", VStr "twitter")]) /\
  is_ok (map_trend (VObj "Trend" [("name", Raising (Exn OtherException "'name'"))])
           start) = false.
Proof. split; reflexivity. Qed.

(** X11.  A raw trend is dropped exactly when reading one of its
    attributes name, url, tweet_volume raises an exception other than
    [AttributeError].  Otherwise it is mapped, without any call, to the
    object with the keys name, url, tweet_volume, platform, where a name
    or url that is missing, or whose property raises [AttributeError],
    reads as the empty text, such a tweet_volume as None, and platform
    is "twitter". *)
Theorem X11_trend_mapping (trend : pyval) (st : state) :
  let name := py_getattr trend "name" in
  let url := py_getattr trend "url" in
  let volume := py_getattr trend "tweet_volume" in
  if raises name || raises url || raises volume then
    is_ok (map_trend trend st) = false /\ snd (map_trend trend st) = st
  else
    map_trend trend st
    = (Ok (VDict [("name", attr_or name (VStr ""));
                  ("url", attr_or url (VStr ""));
                  ("tweet_volume", attr_or volume VNone);
                  ("platform", VStr "twitter")]), st).
Proof.
  cbv zeta. unfold map_trend, getattr, is_ok, raises.
  destruct (py_getattr trend "name") as [|n|e1];
    [| |destruct (is_attribute_error e1)];
    (destruct (py_getattr trend "url") as [|u|e2];
     [| |destruct (is_attribute_error e2)]);
    (destruct (py_getattr trend "tweet_volume") as [|v|e3];
     [| |destruct (is_attribute_error e3)]);
    simpl; auto.
Qed.

(** X12.  A raw item that has none of the attributes (None, a number,
    a text, a dict, an object without fields) is not dropped by
    [search_tweets]: it is mapped to the item of the defaults, with
    empty id and text, author "Unknown", username "unknown", the four
    counts 0, no images, the url "https://twitter.com/unknown/status/"
    and the wall-clock time as timestamp; the clock is read once. *)
Theorem X12_attributeless_tweet (env : Env) (tweet : pyval) (st : state) :
  attributeless tweet ->
  map_tweet env tweet st
  = (Ok (VDict [("id", VStr "");
                ("text", VStr "");
                ("author", VStr "Unknown");
                ("username", VStr "unknown");
                ("timestamp", VStr (now_isoformat env (calls st)));
                ("url", VStr "https://twitter.com/unknown/status/");
                ("likes", VInt 0);
                ("retweets", VInt 0);
                ("replies", VInt 0);
                ("views", VInt 0);
                ("images", VList []);
                ("platform", VStr "twitter")]),
     {| bridge := bridge st; calls := calls st ++ [EvNow]; stdout := stdout st |}).
Proof.
  intros H. unfold map_tweet, extract_media, hasattr, getattr.
  rewrite !H. reflexivity.
Qed.

Lemma X12_attributeless_tweet_witness :
  exists item,
    map_tweet Stub.env (VDict [("id", VInt 5); ("text", VStr "a dict")]) start
    = (Ok item, record EvNow start) /\
    entry "id" item = Some (VStr "") /\
    entry "timestamp" item = Some (VStr "2026-11-03T12:00:00.000000").
Proof.
  eexists. split.
  - apply (X12_attributeless_tweet Stub.env
             (VDict [("id", VInt 5); ("text", VStr "a dict")]) start).
    intros name. reflexivity.
  - split; reflexivity.
Defined.

(* ------------------------------------------------------------------ *)
(** ** Further properties: the session across calls *)

(** A relation on states that every quiet step and every [initialize]
    respects, and that does not look at the output, is respected by the
    dispatcher and by the whole loop. *)
Section LoopPreservation.

Variable env : Env.
Variable I : state -> state -> Prop.
Hypothesis I_refl : forall st, I st st.
Hypothesis I_trans : forall s1 s2 s3, I s1 s2 -> I s2 s3 -> I s1 s3.
Hypothesis I_quiet : forall st st', same_bridge_stdout st st' -> I st st'.
Hypothesis I_initialize : forall u e p, preserves I (initialize env u e p).
Hypothesis I_print : forall doc st st', I st st' -> I st (print doc st').

Lemma run_op_preserves (op : operation) : preserves I (run_op env op).
Proof.
  destruct op; simpl.
  - apply I_initialize.
  - apply (quiet_preserves I _ I_quiet), quiet_search_tweets.
  - apply (quiet_preserves I _ I_quiet), quiet_get_trending.
Qed.

Lemma handle_request_preserves (request : pyval) :
  preserves I (handle_request env request).
Proof.
  intros st. destruct (is_dict request) eqn:Hd.
  - destruct request; try discriminate.
    destruct (handle_request env (VDict kv) st) as [[r|e] st'] eqn:Hr.
    + simpl.
      destruct (handle_request_cases env kv st st' r Hr)
        as [(params & op & payload & _ & _ & Hrun & _) | [(_ & -> & _) | (_ & -> & _)]];
        try apply I_refl.
      pose proof (run_op_preserves op st) as H. rewrite Hrun in H. exact H.
    + destruct (handle_request_dict env kv st) as (r & s & H & _). congruence.
  - rewrite (handle_request_no_get env request st Hd). apply I_refl.
Qed.

Lemma loop_body_preserves (line : string) : preserves I (loop_body env line).
Proof.
  intros st. destruct (string_dec (strip line) "") as [Hb|Hb].
  - rewrite (loop_body_blank env line st Hb). apply I_refl.
  - destruct (json_loads env (strip line)) as [request|msg|ex] eqn:Hl.
    + pose proof (handle_request_preserves request st) as H.
      destruct (handle_request env request st) as [[r|e] st'] eqn:Hr.
      * rewrite (loop_body_response env line request r st st' Hb Hl Hr).
        apply I_print, H.
      * destruct (is_dict request) eqn:Hd.
        -- destruct request; try discriminate.
           destruct (handle_request_dict env kv st) as (r & s & H' & _). congruence.
        -- rewrite (loop_body_no_get env line request st Hb Hl Hd).
           apply I_print, I_refl.
    + rewrite (loop_body_parse_error env line msg st Hb Hl). apply I_print, I_refl.
    + rewrite (loop_body_loads_raises env line ex st Hb Hl). apply I_print, I_refl.
Qed.

Lemma main_loop_preserves (stdin : list string) : preserves I (main_loop env stdin).
Proof.
  induction stdin as [|line rest IH]; intros st.
  - apply I_refl.
  - destruct (string_dec line "") as [->|Hl].
    + apply I_refl.
    + rewrite (main_loop_cons env line rest st Hl).
      eapply I_trans; [apply loop_body_preserves | apply IH].
Qed.

End LoopPreservation.

Lemma print_json_ready_eq (st : state) :
  print_json ready st = (Ok tt, print ready st).
Proof. reflexivity. Qed.

Lemma keeps_client_invariant_initialize (env : Env) (u e p : pyval) :
  preserves keeps_client_invariant (initialize env u e p).
Proof.
  intros st Hinv. rewrite initialize_eq. cbv zeta.
  unfold has_client_if_initialized in *.
  destruct (Client_new env (calls st)); simpl; [exact Hinv|].
  destruct (Client_login env _ _ u e p); simpl; discriminate.
Qed.

Lemma main_loop_client_invariant (env : Env) (stdin : list string) :
  preserves keeps_client_invariant (main_loop env stdin).
Proof.
  apply main_loop_preserves.
  - intros st H. exact H.
  - unfold keeps_client_invariant. auto.
  - intros st st' [Hb _] H. rewrite Hb. exact H.
  - apply keeps_client_invariant_initialize.
  - intros doc st st' H. exact H.
Qed.

Lemma search_passes_guard (env : Env) (query count : pyval) (st : state) :
  initialized (bridge st) = true ->
  has_client_if_initialized (bridge st) ->
  fst (search_tweets env query count st) <> Ok not_initialized /\
  forall c, fst (get_trending env c st) <> Ok not_initialized.
Proof.
  intros Hi Hinv. destruct (client (bridge st)) as [c|] eqn:Hc;
    [|exfalso; apply (Hinv Hi Hc)].
  split.
  - pose proof (search_tweets_run env query count st c Hi Hc) as H.
    destruct (Client_search_tweet env (calls st) c query count).
    + destruct H as (results & st' & -> & _). discriminate.
    + rewrite H. unfold call_failed. destruct (is_twikit e); discriminate.
  - intros count'.
    pose proof (get_trending_run env count' st c Hi Hc) as H. cbv zeta in H.
    destruct (Client_get_trends env (calls st) c) as [trends|ex];
      [destruct (py_min count' (Z.of_nat (length trends))) as [bound|ex];
       [destruct (py_slice_to trends bound) as [kept|ex]|]|].
    1: destruct H as (results & -> & _); discriminate.
    all: rewrite H; unfold call_failed; destruct (is_twikit ex); discriminate.
Qed.

(** X13.  In every state that the process reaches, on any input and
    with any behaviour of the client, a bridge whose flag [initialized]
    is set has a client.  Hence in such a state [search_tweets] and
    [get_trending] answer NOT_INITIALIZED exactly when the flag is not
    set: the second half of the guard, [not self.client], never
    decides. *)
Theorem X13_guard_is_the_flag (env : Env) (stdin : list string)
  (query count : pyval) :
  let st := snd (main env stdin) in
  has_client_if_initialized (bridge st) /\
  (fst (search_tweets env query count st) = Ok not_initialized
   <-> initialized (bridge st) = false) /\
  (fst (get_trending env count st) = Ok not_initialized
   <-> initialized (bridge st) = false).
Proof.
  intros st.
  assert (Hinv : has_client_if_initialized (bridge st)).
  { unfold st, main, bind. rewrite print_json_ready_eq.
    apply main_loop_client_invariant. intros H. discriminate H. }
  split; [exact Hinv|].
  destruct (initialized (bridge st)) eqn:Hi.
  - destruct (search_passes_guard env query count st Hi Hinv) as [Hs Ht].
    split; split; intros H; try discriminate.
    + contradiction.
    + exfalso. apply (Ht count H).
  - split; split; intros _; try reflexivity.
    + rewrite (search_tweets_guard env query count st Hi). reflexivity.
    + rewrite (get_trending_guard env count st Hi). reflexivity.
Qed.

(** X14.  A login that fails after the bridge was initialized leaves
    the flag set and replaces the client of the bridge by the new one,
    whose login failed: the next [search_tweets] passes the guard and
    sends its query to that new client. *)
Theorem X14_failed_login_replaces_client
  (env : Env) (u e p : pyval) (st : state) (ex : exn) :
  initialized (bridge st) = true ->
  Client_new env (calls st) = None ->
  Client_login env (calls st ++ [EvClient]) (length (calls st)) u e p = Some ex ->
  let st1 := snd (initialize env u e p st) in
  let c := length (calls st) in
  fst (initialize env u e p st) = Ok (initialize_failed env ex) /\
  initialized (bridge st1) = true /\
  client (bridge st1) = Some c /\
  forall query count,
    exists k,
      calls (snd (search_tweets env query count st1))
      = calls st ++ [EvClient; EvLogin c u e p; EvSearchTweet c query count]
          ++ repeat EvNow k.
Proof.
  intros Hi Hnew Hlogin st1 c. unfold st1. rewrite initialize_eq. cbv zeta.
  rewrite Hnew, Hlogin. cbn [fst snd bridge with_client client initialized].
  split; [reflexivity|]. split; [exact Hi|]. split; [reflexivity|].
  intros query count.
  match goal with
  | |- context [search_tweets env query count ?s] =>
      destruct (search_tweets_trace env query count s c) as (k & Hk & _);
      [exact Hi | reflexivity |]
  end.
  exists k. rewrite Hk. cbn [calls]. rewrite <- !app_assoc. reflexivity.
Qed.

Lemma X14_failed_login_replaces_client_witness :
  let st1 := snd (initialize Stub.env (VStr "u") (VStr "e") (VStr "wrong")
                    Stub.logged_in) in
  initialized (bridge st1) = true /\
  client (bridge Stub.logged_in) = Some 0 /\
  client (bridge st1) = Some 2 /\
  calls (snd (search_tweets Stub.env (VStr "down") (VInt 1) st1))
  = [EvClient; EvLogin 0 (VStr "u") (VStr "e") (VStr "p");
     EvClient; EvLogin 2 (VStr "u") (VStr "e") (VStr "wrong");
     EvSearchTweet 2 (VStr "down") (VInt 1)].
Proof.
  destruct (X14_failed_login_replaces_client Stub.env (VStr "u") (VStr "e")
              (VStr "wrong") Stub.logged_in
              (Exn TwikitException "Could not authenticate you")
              eq_refl eq_refl eq_refl) as (_ & Hflag & Hclient & _).
  cbv zeta. split; [exact Hflag|]. split; [reflexivity|]. split; [exact Hclient|].
  vm_compute. reflexivity.
Defined.

(** X15.  A request whose params lack the key count is handled as the
    same request with count 20: for two request objects with the same
    method and the same id, of which the second has the params of the
    first with the entry count: 20 put in front, [handle_request]
    returns the same response and leaves the same state. *)
Theorem X15_count_defaults_to_20
  (env : Env) (kv kv' : list (string * pyval)) (params : list (string * pyval))
  (st : state) :
  param kv "params" (VDict []) = VDict params ->
  assoc "count" params = None ->
  param kv' "params" (VDict []) = VDict (("count", VInt 20) :: params) ->
  param kv' "method" VNone = param kv "method" VNone ->
  param kv' "id" VNone = param kv "id" VNone ->
  handle_request env (VDict kv') st = handle_request env (VDict kv) st.
Proof.
  intros Hp Hcount Hp' Hm Hid. unfold handle_request.
  rewrite !dict_get_dict, !bind_ret_l.
  fold (param kv "method" VNone) (param kv "params" (VDict [])) (param kv "id" VNone).
  fold (param kv' "method" VNone) (param kv' "params" (VDict []))
    (param kv' "id" VNone).
  rewrite Hp, Hp', Hm, Hid. unfold try_except. rewrite !dispatch_operation.
  assert (Hop : operation_of (param kv "method" VNone) (("count", VInt 20) :: params)
                = operation_of (param kv "method" VNone) params).
  { unfold operation_of, param. cbn [assoc String.eqb Ascii.eqb Bool.eqb].
    rewrite Hcount. reflexivity. }
  rewrite Hop. reflexivity.
Qed.

Lemma X15_count_defaults_to_20_witness :
  handle_request Stub.env
    (VDict [("method", VStr "trending"); ("params", VDict [("count", VInt 20)]);
            ("id", VInt 1)]) Stub.logged_in
  = handle_request Stub.env
      (VDict [("id", VInt 1); ("method", VStr "trending"); ("params", VDict [])])
      Stub.logged_in.
Proof.
  apply (X15_count_defaults_to_20 Stub.env
           [("id", VInt 1); ("method", VStr "trending"); ("params", VDict [])]
           [("method", VStr "trending"); ("params", VDict [("count", VInt 20)]);
            ("id", VInt 1)] [] Stub.logged_in); reflexivity.
Defined.

(* ------------------------------------------------------------------ *)
(** ** Further properties: the loop and the script *)

Lemma lstrip_whitespace (s : string) :
  lstrip s = "" <-> whitespace_only s = true.
Proof.
  unfold whitespace_only. induction s as [|c rest IH]; simpl.
  - split; reflexivity.
  - destruct (is_space c); simpl; [exact IH|]. split; discriminate.
Qed.

Lemma lstrip_head (s : string) :
  match lstrip s with
  | EmptyString => True
  | String c _ => is_space c = false
  end.
Proof.
  induction s as [|c rest IH]; simpl; [exact I|].
  destruct (is_space c) eqn:E; [exact IH | exact E].
Qed.

Lemma rstrip_head (c : ascii) (rest : string) :
  is_space c = false -> rstrip (String c rest) <> "".
Proof.
  intros Hc. simpl. destruct (rstrip rest); [rewrite Hc|]; discriminate.
Qed.

(** After [strip] a line is empty exactly when it is white space only. *)
Lemma strip_blank (line : string) :
  strip line = "" <-> whitespace_only line = true.
Proof.
  unfold strip. rewrite <- lstrip_whitespace. split.
  - intros H. pose proof (lstrip_head line) as Hh.
    destruct (lstrip line) as [|c rest]; [reflexivity|].
    exfalso. apply (rstrip_head c rest Hh H).
  - intros ->. reflexivity.
Qed.

Section LoopOutput.

Variable env : Env.

Lemma serializable_written (r : pyval) : serializable (written env r).
Proof.
  unfold serializable, written, json_dumps.
  destruct (unserializable r) eqn:E; [reflexivity | exact E].
Qed.

(** What one turn of the loop writes. *)
Lemma loop_body_writes (line : string) (st : state) :
  exists outs,
    stdout (snd (loop_body env line st)) = stdout st ++ outs /\
    length outs = (if strip line =? "" then 0 else 1) /\
    Forall serializable outs.
Proof.
  destruct (string_dec (strip line) "") as [Hb|Hb].
  - exists []. rewrite (loop_body_blank env line st Hb), Hb. simpl.
    rewrite app_nil_r. auto.
  - rewrite (eqb_empty_false _ Hb).
    destruct (json_loads env (strip line)) as [request|msg|ex] eqn:Hl.
    + destruct (is_dict request) eqn:Hd.
      * destruct request; try discriminate.
        destruct (handle_request_dict env kv st) as (r & st' & Hr & _ & Ho & _).
        rewrite (loop_body_response env line _ r st st' Hb Hl Hr).
        exists [written env r]. simpl. rewrite Ho.
        repeat split. constructor; [apply serializable_written | constructor].
      * rewrite (loop_body_no_get env line request st Hb Hl Hd).
        exists [server_error env (no_get request)].
        repeat split. constructor; [reflexivity | constructor].
    + rewrite (loop_body_parse_error env line msg st Hb Hl).
      exists [parse_error msg]. repeat split. constructor; [reflexivity | constructor].
    + rewrite (loop_body_loads_raises env line ex st Hb Hl).
      exists [server_error env ex]. repeat split.
      constructor; [reflexivity | constructor].
Qed.

Lemma main_loop_writes (stdin : list string) (st : state) :
  exists outs,
    main_loop env stdin st = (Ok tt, snd (main_loop env stdin st)) /\
    stdout (snd (main_loop env stdin st)) = stdout st ++ outs /\
    length outs = length (nonblank_lines stdin) /\
    Forall serializable outs.
Proof.
  revert st. induction stdin as [|line rest IH]; intros st.
  - exists []. simpl. rewrite app_nil_r. auto.
  - destruct (string_dec line "") as [->|Hl].
    + exists []. simpl. rewrite app_nil_r. auto.
    + rewrite (main_loop_cons env line rest st Hl).
      destruct (loop_body_writes line st) as (o1 & Ho1 & Hn1 & Hs1).
      destruct (IH (snd (loop_body env line st))) as (o2 & Hrun & Ho2 & Hn2 & Hs2).
      exists (o1 ++ o2). split; [exact Hrun|].
      split; [rewrite Ho2, Ho1, app_assoc; reflexivity|].
      split; [|apply Forall_app; auto].
      rewrite length_app, Hn1, Hn2. unfold nonblank_lines. simpl.
      rewrite (eqb_empty_false _ Hl). simpl.
      destruct (strip line =? ""); reflexivity.
Qed.

End LoopOutput.

Lemma main_writes (env : Env) (stdin : list string) :
  exists outs st,
    main env stdin = (Ok tt, st) /\
    stdout st = ready :: outs /\
    length outs = length (nonblank_lines stdin) /\
    Forall serializable (stdout st).
Proof.
  unfold main, bind. rewrite print_json_ready_eq.
  destruct (main_loop_writes env stdin (print ready start)) as (outs & Hrun & Ho & Hn & Hs).
  exists outs, (snd (main_loop env stdin (print ready start))).
  split; [exact Hrun|]. rewrite Ho. split; [reflexivity|]. split; [exact Hn|].
  constructor; [reflexivity | exact Hs].
Qed.

(** X16.  [main] never raises.  It writes the ready message
    {status: "ready", version: "1.0.0"} first and then exactly one
    line for each line of the input, read before the end of the input,
    that is not blank: blank lines get no answer and no line gets two.
    Every line it writes is a document that [json.dumps] accepts. *)
Theorem X16_one_line_per_request (env : Env) (stdin : list string) :
  exists outs st,
    main env stdin = (Ok tt, st) /\
    stdout st = VDict [("status", VStr "ready"); ("version", VStr "1.0.0")] :: outs /\
    length outs = length (nonblank_lines stdin) /\
    Forall serializable (stdout st).
Proof.
  unfold main, bind. rewrite print_json_ready_eq.
  destruct (main_loop_writes env stdin (print ready start))
    as (outs & Hrun & Ho & Hn & Hs).
  exists outs, (snd (main_loop env stdin (print ready start))).
  split; [exact Hrun|]. rewrite Ho. split; [reflexivity|]. split; [exact Hn|].
  constructor; [reflexivity | exact Hs].
Qed.

(** X17.  The loop stops at the end of the input: what follows the
    first empty string that [readline] returns is never read, so it
    changes nothing in the run. *)
Theorem X17_stops_at_eof (env : Env) (before after : list string) (st : state) :
  main_loop env (before ++ "" :: after) st = main_loop env before st.
Proof.
  revert st. induction before as [|line rest IH]; intros st.
  - reflexivity.
  - destruct (string_dec line "") as [->|Hl]; [reflexivity|].
    change ((line :: rest) ++ "" :: after) with (line :: (rest ++ "" :: after)).
    rewrite !(main_loop_cons env line _ st Hl). apply IH.
Qed.

(** X18.  The loop handles the lines one after the other: running it
    on a first batch of lines, none of them the end of the input, and
    then on a second batch from the state reached, is running it on
    both batches at once. *)
Theorem X18_lines_in_sequence
  (env : Env) (first second : list string) (st : state) :
  Forall (fun line => line <> "") first ->
  main_loop env (first ++ second) st
  = main_loop env second (snd (main_loop env first st)).
Proof.
  intros H. revert st. induction H as [|line rest Hl _ IH]; intros st.
  - reflexivity.
  - change ((line :: rest) ++ second) with (line :: (rest ++ second)).
    rewrite !(main_loop_cons env line _ st Hl). apply IH.
Qed.

Lemma X18_lines_in_sequence_witness :
  main_loop Stub.env ([Stub.encode Stub.req_initialize] ++ [Stub.encode Stub.req_search])
    start
  = main_loop Stub.env [Stub.encode Stub.req_search] Stub.logged_in_after_request.
Proof.
  apply (X18_lines_in_sequence Stub.env [Stub.encode Stub.req_initialize]
           [Stub.encode Stub.req_search] start).
  constructor; [|constructor]. intros H. vm_compute in H. discriminate H.
Defined.

(** X19.  A line is ignored exactly when it is made of white space
    only (spaces, tabs, line ends and the other characters that
    [str.isspace] accepts): then the turn of the loop changes nothing,
    whatever [json.loads] would say of it.  Any other line is answered
    with exactly one line. *)
Theorem X19_blank_lines (env : Env) (line : string) (st : state) :
  if whitespace_only line then loop_body env line st = (Ok tt, st)
  else exists response st',
         loop_body env line st = (Ok tt, st') /\
         stdout st' = stdout st ++ [response].
Proof.
  destruct (whitespace_only line) eqn:Hw.
  - apply loop_body_blank, strip_blank, Hw.
  - assert (Hb : strip line <> "").
    { intros H. apply strip_blank in H. congruence. }
    destruct (loop_body_total env line st) as ([] & st' & Hrun).
    destruct (loop_body_writes env line st) as (outs & Ho & Hn & _).
    rewrite (eqb_empty_false _ Hb) in Hn. rewrite Hrun in Ho. simpl in Ho.
    destruct outs as [|response [|]]; try discriminate.
    exists response, st'. split; [exact Hrun | exact Ho].
Qed.

(** X20.  The file run as a script.  When the import of twikit fails
    (the import of [Client], or both imports of the exception class),
    the process writes one line, the error -32001 "twikit not installed
    or import error: <detail>. Run: pip install twikit" with id null,
    calls nothing, reads nothing and exits with status 1.  When the
    imports succeed, the process exits with status 0 on every input:
    its first line is the ready message, and the [except] of the entry
    point is never taken. *)
Theorem X20_script_exit_status (env : Env) (imports : Imports) (stdin : list string) :
  match import_twikit imports with
  | Some msg =>
      script env imports stdin
      = (1%Z,
         {| bridge := TwikitBridge_init; calls := [];
            stdout :=
              [VDict [("jsonrpc", VStr "2.0");
                      ("error",
                       VDict [("code", VInt (-32001));
                              ("message",
                               VStr ("twikit not installed or import error: " ++ msg
                                       ++ ". Run: pip install twikit"))]);
                      ("id", VNone)]] |})
  | None =>
      exists outs st,
        script env imports stdin = (0%Z, st) /\
        stdout st = ready :: outs /\
        length outs = length (nonblank_lines stdin)
  end.
Proof.
  unfold script. destruct (import_twikit imports) as [msg|].
  - reflexivity.
  - destruct (main_writes env stdin) as (outs & st & Hrun & Ho & Hn & _).
    exists outs, st. rewrite Hrun. repeat split; assumption.
Qed.

(* ------------------------------------------------------------------ *)
(** ** Further properties: what reaches the output, what reaches the client *)

Lemma serializable_assoc (kv : list (string * pyval)) (key : string) (v : pyval) :
  serializable (VDict kv) -> assoc key kv = Some v -> serializable v.
Proof.
  unfold serializable. induction kv as [|[k x] rest IH]; simpl; [discriminate|].
  intros Hs Ha. destruct (unserializable x) eqn:Ex; [discriminate|].
  destruct (k =? key).
  - injection Ha as <-. exact Ex.
  - apply IH; assumption.
Qed.

Lemma serializable_param (kv : list (string * pyval)) (key : string) (d : pyval) :
  serializable (VDict kv) -> serializable d -> serializable (param kv key d).
Proof.
  intros Hkv Hd. unfold param. destruct (assoc key kv) eqn:E; [|exact Hd].
  apply (serializable_assoc kv key p Hkv E).
Qed.

Lemma serializable_result_envelope (payload request_id : pyval) :
  serializable payload -> serializable request_id ->
  serializable (result_envelope payload request_id).
Proof.
  unfold serializable. intros Hp Hi. simpl. rewrite Hp, Hi. reflexivity.
Qed.

Lemma serializable_method_not_found (env : Env) (v request_id : pyval) :
  serializable request_id -> serializable (method_not_found env v request_id).
Proof. unfold serializable. intros Hi. simpl. rewrite Hi. reflexivity. Qed.

Lemma serializable_internal_error (env : Env) (e : exn) (request_id : pyval) :
  serializable request_id -> serializable (internal_error env e request_id).
Proof. unfold serializable. intros Hi. simpl. rewrite Hi. reflexivity. Qed.

Lemma serializable_initialize_payload (env : Env) (u e p : pyval) (st : state)
  (payload : pyval) :
  serializable u -> fst (initialize env u e p st) = Ok payload -> serializable payload.
Proof.
  intros Hu H. rewrite initialize_payload in H.
  destruct (initialize_failure env u e p st) as [ex|]; injection H as <-.
  - unfold initialize_failed. destruct (is_twikit ex); reflexivity.
  - unfold serializable in *. simpl. rewrite Hu. reflexivity.
Qed.

(** X21.  For a request object that is a JSON document and whose method
    is neither [search] nor [trending] (so [initialize], an unknown
    method, or a failure on the parameters), [json.dumps] accepts the
    response of the dispatcher: the line written for it is that
    response itself, with the id of the request, and never the loop's
    "Server error".  Only a response that carries data of the client
    can be rejected. *)
Theorem X21_response_is_written
  (env : Env) (line : string) (kv : list (string * pyval)) (st : state) :
  strip line <> "" ->
  json_loads env (strip line) = Decoded (VDict kv) ->
  serializable (VDict kv) ->
  py_eq_str (param kv "method" VNone) "search" = false ->
  py_eq_str (param kv "method" VNone) "trending" = false ->
  exists r st',
    handle_request env (VDict kv) st = (Ok r, st') /\
    loop_body env line st = (Ok tt, print r st') /\
    entry "id" r = Some (param kv "id" VNone).
Proof.
  intros Hb Hl Hkv Hs Ht.
  destruct (handle_request_dict env kv st) as (r & st' & Hr & Hid & _).
  exists r, st'. split; [exact Hr|]. split; [|exact Hid].
  rewrite (loop_body_response env line _ r st st' Hb Hl Hr).
  assert (Hser : serializable r).
  { assert (Hi : serializable (param kv "id" VNone))
      by (apply serializable_param; [exact Hkv | reflexivity]).
    destruct (handle_request_cases env kv st st' r Hr)
      as [(params & op & payload & Hp & Hop & Hrun & ->) | [(_ & _ & ->) | (_ & _ & _ & ->)]].
    - apply serializable_result_envelope; [|exact Hi].
      unfold operation_of in Hop. rewrite Hs, Ht in Hop.
      destruct (py_eq_str (param kv "method" VNone) "initialize"); [|discriminate].
      injection Hop as <-. simpl in Hrun.
      eapply serializable_initialize_payload; [|rewrite Hrun; reflexivity].
      apply serializable_param; [|reflexivity].
      assert (Hps : serializable (param kv "params" (VDict [])))
        by (apply serializable_param; [exact Hkv | reflexivity]).
      rewrite Hp in Hps. exact Hps.
    - apply serializable_method_not_found, Hi.
    - apply serializable_internal_error, Hi. }
  unfold written, json_dumps. rewrite Hser. reflexivity.
Qed.

Lemma X21_response_is_written_witness :
  exists r st',
    handle_request Stub.env Stub.req_initialize start = (Ok r, st') /\
    loop_body Stub.env (Stub.encode Stub.req_initialize) start = (Ok tt, print r st') /\
    entry "id" r = Some (VInt 1).
Proof.
  apply (X21_response_is_written Stub.env (Stub.encode Stub.req_initialize)
           [("jsonrpc", VStr "2.0"); ("method", VStr "initialize");
            ("params", VDict [("username", VStr "u"); ("email", VStr "e");
                              ("password", VStr "p")]);
            ("id", VInt 1)] start).
  - intros H. vm_compute in H. discriminate H.
  - vm_compute. reflexivity.
  - reflexivity.
  - reflexivity.
  - reflexivity.
Defined.

(** X22.  What [initialize] does outside the process, from any state:
    it first constructs a new client and, only if the constructor
    returns, logs that new client in with the three arguments as they
    were given; it makes no other call and writes nothing.  Its payload
    is the success payload exactly when both calls return, and the flag
    [initialized] after the call is set exactly when it was set before
    or the call succeeded. *)
Theorem X22_initialize_calls (env : Env) (u e p : pyval) (st : state) :
  let st' := snd (initialize env u e p st) in
  let c := length (calls st) in
  calls st' = calls st ++ EvClient ::
                match Client_new env (calls st) with
                | None => [EvLogin c u e p]
                | Some _ => []
                end /\
  stdout st' = stdout st /\
  (fst (initialize env u e p st) = Ok (initialize_success u)
   <-> initialize_failure env u e p st = None) /\
  initialized (bridge st') =
    initialized (bridge st)
    || match initialize_failure env u e p st with None => true | Some _ => false end.
Proof.
  cbv zeta. split; [|split; [apply initialize_stdout|split]].
  - rewrite initialize_eq. cbv zeta.
    destruct (Client_new env (calls st)); [reflexivity|].
    destruct (Client_login env _ _ u e p); simpl; rewrite <- app_assoc; reflexivity.
  - rewrite initialize_payload.
    destruct (initialize_failure env u e p st) as [ex|]; split; intros H;
      try reflexivity; try discriminate.
    injection H as H. exfalso. apply (initialize_failed_not_success env ex u H).
  - rewrite initialize_flag.
    destruct (initialize_failure env u e p st), (initialized (bridge st)); reflexivity.
Qed.

(* ------------------------------------------------------------------ *)
(** ** Timestamps of a search batch *)

Lemma getattr_value (v : pyval) (name : string) (d x : pyval) (st st' : state) :
  getattr v name d st = (Ok x, st') -> x = attr_or (py_getattr v name) d.
Proof.
  unfold getattr, attr_or.
  destruct (py_getattr v name) as [|y|e]; [| |destruct (is_attribute_error e)];
    unfold ret, raise; intros H; congruence.
Qed.

Section BatchTimestamps.

Variable env : Env.

(** The batch loop, with the state in which each kept tweet was mapped:
    its trace is the trace at the start of the loop followed by
    readings of the clock only. *)
Lemma tweets_loop_items (tweets acc : list pyval) (st : state) :
  exists results st',
    tweets_loop env tweets acc st = (Ok (acc ++ results), st') /\
    Forall2 (fun tweet item =>
               exists s s' j,
                 calls s = calls st ++ repeat EvNow j /\
                 map_tweet env tweet s = (Ok item, s'))
      (filter (maps (map_tweet env)) tweets) results.
Proof.
  revert acc st. induction tweets as [|tweet rest IH]; intros acc st.
  - exists [], st. simpl. rewrite app_nil_r. split; constructor.
  - simpl tweets_loop. unfold bind at 1. unfold try_except, bind at 1.
    pose proof (map_tweet_maps env tweet st) as Hmaps.
    destruct (reads_clock_map_tweet env tweet st) as (k & _ & Hk).
    simpl filter.
    destruct (map_tweet env tweet st) as [[item|e] s1] eqn:E;
      unfold is_ok in Hmaps; simpl in Hmaps, Hk; rewrite <- Hmaps.
    + destruct (IH (acc ++ [item]) s1) as (results & st' & Hrun & Hall).
      exists (item :: results), st'. unfold ret at 1. rewrite Hrun.
      rewrite <- app_assoc. split; [reflexivity|].
      constructor.
      * exists st, s1, 0. simpl. rewrite app_nil_r. auto.
      * eapply Forall2_impl; [|exact Hall].
        intros t i (s & s' & j & Hs & Hm). exists s, s', (k + j).
        rewrite Hs, Hk, <- app_assoc, repeat_app. auto.
    + destruct (IH acc s1) as (results & st' & Hrun & Hall).
      exists results, st'. unfold ret at 1. rewrite Hrun. split; [reflexivity|].
      eapply Forall2_impl; [|exact Hall].
      intros t i (s & s' & j & Hs & Hm). exists s, s', (k + j).
      rewrite Hs, Hk, <- app_assoc, repeat_app. auto.
Qed.

(** [search_tweets] on a bridge that passes the guard, when the client
    answers: the payload is made of the results of the batch loop. *)
Lemma search_tweets_loop (query count : pyval) (st : state) (c : nat)
  (tweets : list pyval) :
  initialized (bridge st) = true -> client (bridge st) = Some c ->
  Client_search_tweet env (calls st) c query count = Ok tweets ->
  forall results st',
    tweets_loop env tweets [] (record (EvSearchTweet c query count) st)
    = (Ok results, st') ->
    search_tweets env query count st = (Ok (search_success results query), st').
Proof.
  intros Hi Hc Hans results st' Hloop. unfold search_tweets, no_client, the_client.
  unfold try_except, bind, get_bridge, search_tweet, ret, raise. cbv beta.
  rewrite Hi, Hc. cbn [negb orb]. cbv beta iota. rewrite Hc. cbv beta iota.
  rewrite Hans, Hloop. reflexivity.
Qed.

(** The timestamp of an item, by the state in which its tweet was mapped. *)
Lemma map_tweet_timestamp_rule (tweet item : pyval) (s s' : state) (tr : trace)
  (j : nat) :
  calls s = tr ++ repeat EvNow j ->
  map_tweet env tweet s = (Ok item, s') ->
  timestamp_rule env tr tweet item.
Proof.
  intros Hs Hmap.
  destruct (map_tweet_timestamp env tweet item s s' Hmap) as (v & Hv & Hts).
  apply getattr_value in Hv. fold (created_at_of tweet) in Hv. subst v.
  unfold timestamp_rule, spec_timestamp in *. split.
  - intros text iso Hc Htext Hiso. rewrite Hts. unfold spec_parsed_date.
    rewrite Hc, (eqb_empty_false text Htext), Hiso. reflexivity.
  - intros Hnone. exists j. rewrite Hts, Hnone, Hs. reflexivity.
Qed.

End BatchTimestamps.

(** C9.  On a bridge that passes the guard, when the client answers
    [search_tweet] with a batch of raw tweets, [search_tweets] returns
    success with one item for each tweet of the batch that maps, in the
    order of the batch, and for every such tweet and its item, with
    [created_at] what [getattr(tweet, 'created_at', None)] gives:
    - if [created_at] is a non-empty text that [strptime] parses in the
      fixed format, the timestamp of the item is its ISO-8601 rendering;
    - in every other case (the field absent or None, not a text, empty,
      or rejected by [strptime]) the timestamp of the item is the
      wall-clock time, read after the call to the client and the
      readings of the clock made for the tweets before.
    Whether a tweet of the batch maps or is dropped is the same for
    every tweet that differs from it in the value of [created_at] only:
    no value of the date drops the item. *)
Theorem C9_batch_timestamps
  (env : Env) (query count : pyval) (st : state) (c : nat) (tweets : list pyval) :
  initialized (bridge st) = true ->
  client (bridge st) = Some c ->
  Client_search_tweet env (calls st) c query count = Ok tweets ->
  exists results st',
    search_tweets env query count st = (Ok (search_success results query), st') /\
    Forall2 (timestamp_rule env (calls st ++ [EvSearchTweet c query count]))
      (filter (maps (map_tweet env)) tweets) results /\
    (forall tweet tweet',
        In tweet tweets -> same_but_created_at tweet tweet' ->
        maps (map_tweet env) tweet' = maps (map_tweet env) tweet).
Proof.
  intros Hi Hc Hans.
  destruct (tweets_loop_items env tweets [] (record (EvSearchTweet c query count) st))
    as (results & st' & Hloop & Hall).
  exists results, st'.
  split; [apply (search_tweets_loop env query count st c tweets Hi Hc Hans _ _ Hloop)|].
  split.
  - eapply Forall2_impl; [|exact Hall].
    intros tweet item (s & s' & j & Hs & Hmap).
    apply (map_tweet_timestamp_rule env tweet item s s' _ j Hs Hmap).
  - intros tweet tweet' _ Hsame. unfold maps.
    symmetry. eapply sim_is_ok. apply map_tweet_sim, Hsame.
Qed.

Lemma C9_batch_timestamps_witness :
  exists item1 item2 st',
    search_tweets Stub.env (VStr "cats") (VInt 2) Stub.logged_in
    = (Ok (search_success [item1; item2] (VStr "cats")), st') /\
    entry "timestamp" item1 = Some (VStr "2026-01-05T10:00:00+00:00") /\
    entry "timestamp" item2 = Some (VStr "2026-11-03T12:00:00.000000").
Proof.
  destruct (C9_batch_timestamps Stub.env (VStr "cats") (VInt 2) Stub.logged_in 0
              [Stub.tweet "11" "cats!" Stub.good_date;
               Stub.tweet "12" "more cats" "yesterday"] eq_refl eq_refl eq_refl)
    as (results & st' & Hrun & Hrule & _).
  assert (Hkept : filter (maps (map_tweet Stub.env))
                    [Stub.tweet "11" "cats!" Stub.good_date;
                     Stub.tweet "12" "more cats" "yesterday"]
                  = [Stub.tweet "11" "cats!" Stub.good_date;
                     Stub.tweet "12" "more cats" "yesterday"])
    by (vm_compute; reflexivity).
  rewrite Hkept in Hrule.
  inversion Hrule as [|t1 item1 l1 r1 [H1 _] Hrest]; subst.
  inversion Hrest as [|t2 item2 l2 r2 [_ H2] Hnil]; subst.
  inversion Hnil; subst.
  exists item1, item2, st'. split; [exact Hrun|]. split.
  - apply (H1 Stub.good_date "2026-01-05T10:00:00+00:00"); try reflexivity.
    intros H. discriminate H.
  - destruct (H2 eq_refl) as (j & Hj). exact Hj.
Defined.

